(** * Task lifecycle cascade of the todo backend (hf_deployment)

    Shallow embedding of
    - [src/utils/recurrence_calculator.py]  (RecurrenceCalculator),
    - [src/models/task.py], [src/models/task_history.py] (Task, TaskHistory),
    - [src/services/task_service.py]        (TaskService),
    - [src/services/history_service.py]     (HistoryService),
    - [src/services/scheduler_service.py]   (SchedulerService job ids),
    - [src/api/tasks.py], [src/api/history.py] (TaskApi, HistoryApi). *)

From Stdlib Require Import ZArith List String Ascii Bool Lia Sorted Permutation.
Import ListNotations.
Open Scope Z_scope.

(** ** Python exceptions and results *)

Inductive exc : Type :=
| ValueError
| OverflowError
| NameError (name : string)
| DbError.

Inductive result (A : Type) : Type :=
| Ok (a : A)
| Err (e : exc).
Arguments Ok {A} a.
Arguments Err {A} e.

Definition bind {A B} (r : result A) (k : A -> result B) : result B :=
  match r with Ok a => k a | Err e => Err e end.

(** Truthiness of an optional attribute ([x is not None]). *)
Definition is_some {A} (o : option A) : bool :=
  match o with Some _ => true | None => false end.

Notation "x <- r ;; k" := (bind r (fun x => k))
  (at level 61, r at next level, right associativity).

(** ** Python [datetime]

    Fields as [datetime.datetime] stores them; [tzinfo = None] is a naive
    datetime.  A [tzinfo] is represented by its UTC offset in minutes. *)

Record datetime := mkDT {
  year : Z; month : Z; day : Z;
  hour : Z; minute : Z; second : Z; microsecond : Z;
  tzinfo : option Z
}.

Definition MINYEAR : Z := 1.
Definition MAXYEAR : Z := 9999.

(** [datetime._is_leap] *)
Definition is_leap (y : Z) : bool :=
  (y mod 4 =? 0) && (negb (y mod 100 =? 0) || (y mod 400 =? 0)).

(** [datetime._days_in_month] *)
Definition days_in_month (y m : Z) : Z :=
  if m =? 2 then (if is_leap y then 29 else 28)
  else if (m =? 4) || (m =? 6) || (m =? 9) || (m =? 11) then 30
  else 31.

(** [datetime._days_before_year] *)
Definition days_before_year (y : Z) : Z :=
  let y' := y - 1 in y' * 365 + y' / 4 - y' / 100 + y' / 400.

(** [datetime._DAYS_BEFORE_MONTH] and [_days_before_month] *)
Definition days_before_month_table (m : Z) : Z :=
  nth (Z.to_nat m) [-1; 0; 31; 59; 90; 120; 151; 181; 212; 243; 273; 304; 334] 0.

Definition days_before_month (y m : Z) : Z :=
  days_before_month_table m + (if (m >? 2) && is_leap y then 1 else 0).

(** [datetime._ymd2ord] *)
Definition toordinal (d : datetime) : Z :=
  days_before_year (year d) + days_before_month (year d) (month d) + day d.

(** The invariant the [datetime] constructor enforces. *)
Definition valid_dt (d : datetime) : bool :=
  (MINYEAR <=? year d) && (year d <=? MAXYEAR) &&
  (1 <=? month d) && (month d <=? 12) &&
  (1 <=? day d) && (day d <=? days_in_month (year d) (month d)) &&
  (0 <=? hour d) && (hour d <? 24) &&
  (0 <=? minute d) && (minute d <? 60) &&
  (0 <=? second d) && (second d <? 60) &&
  (0 <=? microsecond d) && (microsecond d <? 1000000).

(** [datetime.replace(year=, month=, day=)]: keeps time and [tzinfo];
    raises [ValueError] outside the year range. *)
Definition dt_replace_ymd (d : datetime) (y m dd : Z) : result datetime :=
  if (MINYEAR <=? y) && (y <=? MAXYEAR) then
    Ok (mkDT y m dd (hour d) (minute d) (second d) (microsecond d) (tzinfo d))
  else Err ValueError.

(** One calendar day later, same wall-clock time and [tzinfo]: the ordinal
    step [fromordinal(toordinal() + 1)] that [datetime.__add__] performs,
    raising [OverflowError] past [date.max]. *)
Definition next_day (d : datetime) : result datetime :=
  if day d <? days_in_month (year d) (month d) then
    Ok (mkDT (year d) (month d) (day d + 1) (hour d) (minute d) (second d)
             (microsecond d) (tzinfo d))
  else if month d <? 12 then
    Ok (mkDT (year d) (month d + 1) 1 (hour d) (minute d) (second d)
             (microsecond d) (tzinfo d))
  else if year d <? MAXYEAR then
    Ok (mkDT (year d + 1) 1 1 (hour d) (minute d) (second d)
             (microsecond d) (tzinfo d))
  else Err OverflowError.

(** [d + timedelta(days=n)] for a whole number of days: [n] ordinal steps. *)
Fixpoint add_days (d : datetime) (n : nat) : result datetime :=
  match n with
  | O => Ok d
  | S n' => d' <- next_day d ;; add_days d' n'
  end.

(** [d + relativedelta(months=1)] (dateutil): month rolls over into the next
    year, the day is clamped with [calendar.monthrange], then [replace]. *)
Definition add_relativedelta_months1 (d : datetime) : result datetime :=
  let y := if month d =? 12 then year d + 1 else year d in
  let m := if month d =? 12 then 1 else month d + 1 in
  dt_replace_ymd d y m (Z.min (days_in_month y m) (day d)).

(** [d + relativedelta(years=n)] (dateutil). *)
Definition add_relativedelta_years (n : Z) (d : datetime) : result datetime :=
  let y := year d + n in
  dt_replace_ymd d y (month d) (Z.min (days_in_month y (month d)) (day d)).

(** Comparison of two aware datetimes sharing one [tzinfo]: Python compares
    the naive fields lexicographically. *)
Fixpoint lex_lt (xs ys : list Z) : bool :=
  match xs, ys with
  | x :: xs', y :: ys' => (x <? y) || ((x =? y) && lex_lt xs' ys')
  | _, _ => false
  end.

Definition dt_fields (d : datetime) : list Z :=
  [year d; month d; day d; hour d; minute d; second d; microsecond d].

Definition dt_lt (a b : datetime) : bool := lex_lt (dt_fields a) (dt_fields b).

(** The instant a datetime denotes, in microseconds; a timestamptz column
    compares values by this instant (naive values read as UTC). *)
Definition dt_instant (d : datetime) : Z :=
  let off := match tzinfo d with Some o => o | None => 0 end in
  ((((toordinal d * 24 + hour d) * 60 + minute d - off) * 60 + second d) * 1000000
   + microsecond d).

(** Exceptions of the surrounding Python and SQL code besides [exc]:
    [TypeError] (ordering a naive against an aware datetime),
    [AttributeError] (reading an attribute a pydantic model does not
    declare) and pydantic's [ValidationError]. *)
Inductive py_error : Type :=
| PyExc (e : exc)
| TypeError
| AttributeError (cls attr : string)
| ValidationError.

Inductive py_result (A : Type) : Type :=
| POk (a : A)
| PErr (e : py_error).
Arguments POk {A} a.
Arguments PErr {A} e.

(** Python's datetime ordering: two naive values, or two aware values with
    the same UTC offset, compare their naive fields; aware values with
    different offsets compare the instants they denote; ordering a naive
    against an aware value raises [TypeError] ([None] here). *)
Definition dt_cmp (a b : datetime) : option comparison :=
  let fields := if dt_lt a b then Lt else if dt_lt b a then Gt else Eq in
  match tzinfo a, tzinfo b with
  | None, None => Some fields
  | Some oa, Some ob =>
      if oa =? ob then Some fields else Some (Z.compare (dt_instant a) (dt_instant b))
  | _, _ => None
  end.

(** A stable insertion sort by [key], largest first. *)
Fixpoint insert_desc {A} (key : A -> Z) (x : A) (l : list A) : list A :=
  match l with
  | [] => [x]
  | y :: ys => if key y <=? key x then x :: y :: ys else y :: insert_desc key x ys
  end.

Fixpoint sort_desc {A} (key : A -> Z) (l : list A) : list A :=
  match l with
  | [] => []
  | x :: xs => insert_desc key x (sort_desc key xs)
  end.

(** The order in which one query meets the rows before sorting: any
    permutation of them, chosen by the database and possibly different for
    every query. *)
Record tie_order (A : Type) := mkTieOrder {
  arrange : list A -> list A;
  arrange_perm : forall l, Permutation (arrange l) l
}.
Arguments arrange {A} _ _.
Arguments arrange_perm {A} _ _.

(** [ORDER BY key DESC]: the rows sorted by [key], largest first.  SQL
    fixes no order among rows of equal key: they come in the order [o] of
    the query meets them, so every order the database may return is
    [order_by_desc key o rows] for some [o]. *)
Definition order_by_desc {A} (key : A -> Z) (o : tie_order A) (l : list A) : list A :=
  sort_desc key (arrange o l).

(** Rows of equal key in table order: one of the orders above. *)
Definition table_order {A} : tie_order A := mkTieOrder A (fun l => l) (@Permutation_refl A).

(** ** RecurrenceCalculator *)

Definition DAILY : string := "daily".
Definition WEEKLY : string := "weekly".
Definition BI_WEEKLY : string := "bi-weekly".
Definition MONTHLY : string := "monthly".
Definition YEARLY : string := "yearly".

Definition all_patterns : list string := [DAILY; WEEKLY; BI_WEEKLY; MONTHLY; YEARLY].

Definition is_valid (pattern : string) : bool :=
  existsb (String.eqb pattern) all_patterns.

Module RecurrenceCalculator.

(** [RecurrenceCalculator.calculate_next_occurrence].  [current_due] is a
    [datetime] object, hence always truthy: the [not current_due] guard
    never fires and is not represented. *)
Definition calculate_next_occurrence (current_due : datetime) (pattern : string)
  : result datetime :=
  if String.eqb pattern "" then Err ValueError
  else if negb (is_valid pattern) then Err ValueError
  else match tzinfo current_due with
  | None => Err ValueError
  | Some _ =>
      if String.eqb pattern DAILY then add_days current_due 1
      else if String.eqb pattern WEEKLY then add_days current_due 7
      else if String.eqb pattern BI_WEEKLY then add_days current_due 14
      else if String.eqb pattern MONTHLY then add_relativedelta_months1 current_due
      else if String.eqb pattern YEARLY then add_relativedelta_years 1 current_due
      else Err ValueError
  end.


(** The [for _ in range(count)] loop of [calculate_multiple_occurrences]. *)
Fixpoint multiple_loop (n : nat) (current : datetime) (pattern : string)
  : result (list datetime) :=
  match n with
  | O => Ok []
  | S k =>
      next_occurrence <- calculate_next_occurrence current pattern ;;
      rest <- multiple_loop k next_occurrence pattern ;;
      Ok (next_occurrence :: rest)
  end.

(** [RecurrenceCalculator.calculate_multiple_occurrences] *)
Definition calculate_multiple_occurrences (start_date : datetime) (pattern : string)
    (count : Z) : result (list datetime) :=
  if count <? 0 then Err ValueError
  else if count =? 0 then Ok []
  else multiple_loop (Z.to_nat count) start_date pattern.

(** The [while count < max_count] loop of [calculate_occurrences_until]:
    [fuel] is the number of iterations left. *)
Fixpoint until_loop (fuel : nat) (current end_date : datetime) (pattern : string)
  : py_result (list datetime) :=
  match fuel with
  | O => POk []
  | S f =>
      match calculate_next_occurrence current pattern with
      | Err e => PErr (PyExc e)
      | Ok next_occurrence =>
          match dt_cmp next_occurrence end_date with
          | None => PErr TypeError
          | Some Gt => POk []
          | Some _ =>
              match until_loop f next_occurrence end_date pattern with
              | POk rest => POk (next_occurrence :: rest)
              | PErr e => PErr e
              end
          end
      end
  end.

(** [RecurrenceCalculator.calculate_occurrences_until] *)
Definition calculate_occurrences_until (start_date : datetime) (pattern : string)
    (end_date : datetime) (max_count : Z) : py_result (list datetime) :=
  match dt_cmp end_date start_date with
  | None => PErr TypeError
  | Some Gt => until_loop (Z.to_nat max_count) start_date end_date pattern
  | Some _ => POk []
  end.

End RecurrenceCalculator.

Definition utc : option Z := Some 0%Z.

(** ** Models: [src/models/task.py] and [src/models/task_history.py] *)

(** [models.task.RecurrencePattern] (a [str] enum). *)
Inductive RecurrencePattern : Type :=
| RP_DAILY | RP_WEEKLY | RP_BI_WEEKLY | RP_MONTHLY | RP_YEARLY.

Definition rp_value (p : RecurrencePattern) : string :=
  match p with
  | RP_DAILY => DAILY | RP_WEEKLY => WEEKLY | RP_BI_WEEKLY => BI_WEEKLY
  | RP_MONTHLY => MONTHLY | RP_YEARLY => YEARLY
  end.

(** [RecurrencePattern(value)]: the member with that value. *)
Definition rp_of_value (s : string) : option RecurrencePattern :=
  find (fun p => String.eqb (rp_value p) s)
       [RP_DAILY; RP_WEEKLY; RP_BI_WEEKLY; RP_MONTHLY; RP_YEARLY].

Module Task.
(** The [Task] table row.  The JSON and metadata columns (subitems,
    category, tags, status, priority, shopping_list, recursion) are only
    copied by [update_task] and are not represented. *)
Record t := mk {
  id : Z;
  user_id : Z;
  title : string;
  description : string;
  completed : bool;
  created_at : datetime;
  updated_at : datetime;
  client_id : option string;
  version : Z;
  due_date : option datetime;
  recurrence_pattern : option RecurrencePattern;
  is_recurring : bool;
  reminder_minutes : Z;
  next_occurrence : option datetime
}.

(** [Task.calculate_next_occurrence] *)
Definition calculate_next_occurrence (task : t) : result datetime :=
  match is_recurring task, due_date task, recurrence_pattern task with
  | true, Some d, Some p => RecurrenceCalculator.calculate_next_occurrence d (rp_value p)
  | _, _, _ => Err ValueError
  end.
End Task.

(** [HistoryActionType] *)
Inductive HistoryActionType : Type :=
| CREATED | UPDATED | COMPLETED | DELETED | ARCHIVED | RESTORED.

Definition action_eqb (a b : HistoryActionType) : bool :=
  match a, b with
  | CREATED, CREATED | UPDATED, UPDATED | COMPLETED, COMPLETED
  | DELETED, DELETED | ARCHIVED, ARCHIVED | RESTORED, RESTORED => true
  | _, _ => false
  end.

Module TaskHistory.
Record t := mk {
  id : Z;
  user_id : Z;
  original_task_id : Z;
  title : string;
  description : string;
  completed : bool;
  due_date : option datetime;
  recurrence_pattern : option string;
  action_type : HistoryActionType;
  action_date : datetime;
  action_by : Z;
  can_restore : bool;
  retention_until : datetime
}.

Definition with_can_restore (h : t) (b : bool) : t :=
  mk (id h) (user_id h) (original_task_id h) (title h) (description h)
     (completed h) (due_date h) (recurrence_pattern h) (action_type h)
     (action_date h) (action_by h) b (retention_until h).

(** [TaskHistory.validate_action_type] *)
Definition validate_action_type (h : t) : result t :=
  if action_eqb (action_type h) COMPLETED && can_restore h then Err ValueError
  else if action_eqb (action_type h) DELETED && negb (can_restore h)
  then Ok (with_can_restore h true)
  else Ok h.

(** [TaskHistory.__init__] fills [retention_until] with
    [action_date + relativedelta(years=2)], then validates. *)
Definition init (h : t) : result t :=
  r <- add_relativedelta_years 2 (action_date h) ;;
  validate_action_type
    (mk (id h) (user_id h) (original_task_id h) (title h) (description h)
        (completed h) (due_date h) (recurrence_pattern h) (action_type h)
        (action_date h) (action_by h) (can_restore h) r).

(** [TaskHistory.from_task]; [action_date] defaults to [datetime.utcnow()]
    and the id is assigned by the database on insert. *)
Definition from_task (utcnow : datetime) (task : Task.t)
    (action_type : HistoryActionType) (action_by : Z) : result t :=
  init (mk 0 (Task.user_id task) (Task.id task) (Task.title task)
           (Task.description task) (Task.completed task) (Task.due_date task)
           (option_map rp_value (Task.recurrence_pattern task))
           action_type utcnow action_by (action_eqb action_type DELETED)
           utcnow).
End TaskHistory.

Module TaskUpdate.
(** [TaskUpdate], a pydantic model declaring [title], [description],
    [completed] and [subitems] (the JSON [subitems] is not represented, see
    [Task.t]); reading any other attribute raises [AttributeError]. *)
Record t := mk {
  title : option string;
  description : option string;
  completed : option bool
}.

Definition fields : list string := ["title"; "description"; "completed"; "subitems"]%string.
End TaskUpdate.

Module TaskOps.
Import Task.

Definition with_id (x : t) (i : Z) : t :=
  mk i (user_id x) (title x) (description x) (completed x) (created_at x)
     (updated_at x) (client_id x) (version x) (due_date x)
     (recurrence_pattern x) (is_recurring x) (reminder_minutes x)
     (next_occurrence x).

(** [task.completed = True; task.updated_at = now; task.version += 1] *)
Definition mark_completed (x : t) (now : datetime) : t :=
  mk (id x) (user_id x) (title x) (description x) true (created_at x)
     now (client_id x) (version x + 1) (due_date x)
     (recurrence_pattern x) (is_recurring x) (reminder_minutes x)
     (next_occurrence x).

Definition opt_set {A} (o : option A) (old : A) : A :=
  match o with Some v => v | None => old end.

(** The field assignments of [update_task] for the attributes [TaskUpdate]
    declares, then [updated_at] and [version += 1]. *)
Definition apply_update (x : t) (p : TaskUpdate.t) (now : datetime) : t :=
  mk (id x) (user_id x)
     (opt_set (TaskUpdate.title p) (title x))
     (opt_set (TaskUpdate.description p) (description x))
     (opt_set (TaskUpdate.completed p) (completed x))
     (created_at x) now (client_id x) (version x + 1) (due_date x)
     (recurrence_pattern x) (is_recurring x) (reminder_minutes x)
     (next_occurrence x).
End TaskOps.

(** ** Persistent store (the [tasks] and [task_history] tables) *)

Record store := mkStore {
  tasks : list Task.t;
  history : list TaskHistory.t;
  next_task_id : Z;
  next_history_id : Z
}.

(** [session.add(task); session.commit(); session.refresh(task)] for a new
    row: the database assigns the next id. *)
Definition insert_task (st : store) (x : Task.t) : store * Task.t :=
  let x' := TaskOps.with_id x (next_task_id st) in
  (mkStore (tasks st ++ [x']) (history st) (next_task_id st + 1) (next_history_id st), x').

(** [session.add(task); session.commit()] for an existing row. *)
Definition save_task (st : store) (x : Task.t) : store :=
  mkStore (map (fun u => if Task.id u =? Task.id x then x else u) (tasks st))
          (history st) (next_task_id st) (next_history_id st).

(** [session.delete(task); session.commit()] *)
Definition delete_row (st : store) (task_id : Z) : store :=
  mkStore (filter (fun u => negb (Task.id u =? task_id)) (tasks st))
          (history st) (next_task_id st) (next_history_id st).

Definition insert_history (st : store) (h : TaskHistory.t) : store * TaskHistory.t :=
  let h' := TaskHistory.mk (next_history_id st) (TaskHistory.user_id h)
              (TaskHistory.original_task_id h) (TaskHistory.title h)
              (TaskHistory.description h) (TaskHistory.completed h)
              (TaskHistory.due_date h) (TaskHistory.recurrence_pattern h)
              (TaskHistory.action_type h) (TaskHistory.action_date h)
              (TaskHistory.action_by h) (TaskHistory.can_restore h)
              (TaskHistory.retention_until h) in
  (mkStore (tasks st) (history st ++ [h']) (next_task_id st) (next_history_id st + 1), h').

Definition save_history (st : store) (h : TaskHistory.t) : store :=
  mkStore (tasks st)
          (map (fun u => if TaskHistory.id u =? TaskHistory.id h then h else u) (history st))
          (next_task_id st) (next_history_id st).

(** What a service call sees of the world besides the store:
    [datetime.utcnow()] and whether the database accepts the history row
    (its INSERT, flushed by [session.commit()]).  A failed commit writes
    nothing and leaves the SQLAlchemy session pending rollback: until
    [session.rollback()], every later commit in the same session raises
    ([PendingRollbackError], a database error). *)
Record env := mkEnv {
  utcnow : datetime;
  history_db_ok : bool
}.

(** Whether the session can still commit after a caught exception [x]:
    not after a failed commit ([DbError]); an exception raised before
    anything reached the session leaves it as it was. *)
Definition session_usable_after (x : exc) : bool :=
  match x with DbError => false | _ => true end.

(** ** HistoryService *)

(** ** SQL [ILIKE] (PostgreSQL)

    Strings are ASCII text.  [ILIKE] lowercases pattern and text, then
    matches: [%] any run of characters, [_] one character, a backslash
    makes the next pattern character literal, every other character
    matches itself. *)

Definition ascii_lower (c : ascii) : ascii :=
  let n := nat_of_ascii c in
  if (65 <=? n)%nat && (n <=? 90)%nat then ascii_of_nat (n + 32) else c.

(** The suffixes of a text, longest first. *)
Fixpoint suffixes (t : list ascii) : list (list ascii) :=
  t :: match t with [] => [] | _ :: t' => suffixes t' end.

(** [LIKE]; a pattern ending in a lone backslash is an error in PostgreSQL
    and never arises from the patterns [%s%] built below (the final [%] is
    always there to be escaped); it matches nothing here. *)
Fixpoint like (p t : list ascii) : bool :=
  match p with
  | [] => match t with [] => true | _ => false end
  | c :: p' =>
      if Ascii.eqb c "%" then existsb (like p') (suffixes t)
      else if Ascii.eqb c "_" then
        match t with [] => false | _ :: t' => like p' t' end
      else if Ascii.eqb c "\" then
        match p' with
        | [] => false
        | e :: p'' => match t with [] => false | d :: t' => Ascii.eqb e d && like p'' t' end
        end
      else match t with [] => false | d :: t' => Ascii.eqb c d && like p' t' end
  end.

(** [text ILIKE pattern] *)
Definition ilike (text pattern : string) : bool :=
  like (map ascii_lower (list_ascii_of_string pattern))
       (map ascii_lower (list_ascii_of_string text)).

(** [TaskHistoryQuery], a pydantic model: [page >= 1],
    [1 <= page_size <= 100], otherwise [ValidationError]. *)
Module TaskHistoryQuery.
Record t := mk {
  action_type : option HistoryActionType;
  start_date : option datetime;
  end_date : option datetime;
  search : option string;
  page : Z;
  page_size : Z
}.

Definition make (action_type : option HistoryActionType) (start_date end_date : option datetime)
    (search : option string) (page page_size : Z) : py_result t :=
  if (1 <=? page) && (1 <=? page_size) && (page_size <=? 100)
  then POk (mk action_type start_date end_date search page page_size)
  else PErr ValidationError.

(** [TaskHistoryQuery()] *)
Definition default : t := mk None None None None 1 50.
End TaskHistoryQuery.

Module HistoryService.

(** [HistoryService.create_history_entry] *)
Definition create_history_entry (e : env) (st : store) (task : Task.t)
    (action_type : HistoryActionType) (action_by : Z) : result (store * TaskHistory.t) :=
  h <- TaskHistory.from_task (utcnow e) task action_type action_by ;;
  if history_db_ok e then Ok (insert_history st h) else Err DbError.

(** [select(TaskHistory).where(id == history_id, user_id == user_id).first()] *)
Definition get_history_by_id (st : store) (history_id user_id : Z) : option TaskHistory.t :=
  find (fun h => (TaskHistory.id h =? history_id) && (TaskHistory.user_id h =? user_id))
       (history st).

(** [bool(history.recurrence_pattern)] *)
Definition truthy_str (o : option string) : bool :=
  match o with Some s => negb (String.eqb s "") | None => false end.

(** [HistoryService.restore_deleted_task]: [None] when no entry matches,
    [ValueError] when the entry is not restorable. *)
Definition restore_deleted_task (e : env) (st : store) (history_id user_id : Z)
  : store * result (option Task.t) :=
  match get_history_by_id st history_id user_id with
  | None => (st, Ok None)
  | Some h =>
      if negb (TaskHistory.can_restore h) then (st, Err ValueError)
      else
        let restored_task :=
          Task.mk 0 (TaskHistory.user_id h) (TaskHistory.title h)
            (TaskHistory.description h) (TaskHistory.completed h)
            (utcnow e) (utcnow e) None 1 (TaskHistory.due_date h)
            (match TaskHistory.recurrence_pattern h with
             | Some s => rp_of_value s | None => None end)
            (truthy_str (TaskHistory.recurrence_pattern h))
            15 None in
        let '(st1, x) := insert_task st restored_task in
        let st2 := save_history st1 (TaskHistory.with_can_restore h false) in
        (st2, Ok (Some x))
  end.

(** [HistoryService.cleanup_old_history]: the rows with
    [retention_until < cutoff_date] are deleted and counted. *)
Definition cleanup_old_history (st : store) (cutoff_date : datetime) : store * Z :=
  let old_entries :=
    filter (fun h => dt_instant (TaskHistory.retention_until h) <? dt_instant cutoff_date)
           (history st) in
  let count := Z.of_nat (List.length old_entries) in
  (mkStore (tasks st)
           (filter (fun h => negb (dt_instant (TaskHistory.retention_until h)
                                   <? dt_instant cutoff_date)) (history st))
           (next_task_id st) (next_history_id st),
   count).

(** The [where] clauses of [get_history]: the owner, then each filter the
    query sets ([if query.search:] skips an empty search text). *)
Definition history_matches (user_id : Z) (q : TaskHistoryQuery.t) (h : TaskHistory.t) : bool :=
  (TaskHistory.user_id h =? user_id) &&
  match TaskHistoryQuery.action_type q with
  | Some a => action_eqb (TaskHistory.action_type h) a | None => true end &&
  match TaskHistoryQuery.start_date q with
  | Some s => dt_instant s <=? dt_instant (TaskHistory.action_date h) | None => true end &&
  match TaskHistoryQuery.end_date q with
  | Some s => dt_instant (TaskHistory.action_date h) <=? dt_instant s | None => true end &&
  match TaskHistoryQuery.search q with
  | Some s =>
      if String.eqb s "" then true
      else ilike (TaskHistory.title h) ("%" ++ s ++ "%")
  | None => true
  end.

(** [HistoryService.get_history]: the count of the filtered rows, and the
    page [offset((page - 1) * page_size).limit(page_size)] of the rows
    ordered by [action_date] descending, ties in the order [o] of this
    query.  PostgreSQL rejects a negative [OFFSET] or [LIMIT]. *)
Definition get_history (o : tie_order TaskHistory.t) (st : store) (user_id : Z)
    (query : option TaskHistoryQuery.t) : py_result (list TaskHistory.t * Z) :=
  let q := match query with Some q => q | None => TaskHistoryQuery.default end in
  let rows := filter (history_matches user_id q) (history st) in
  let total_count := Z.of_nat (List.length rows) in
  let ordered := order_by_desc (fun h => dt_instant (TaskHistory.action_date h)) o rows in
  let offset := (TaskHistoryQuery.page q - 1) * TaskHistoryQuery.page_size q in
  if (offset <? 0) || (TaskHistoryQuery.page_size q <? 0) then PErr (PyExc DbError)
  else POk (firstn (Z.to_nat (TaskHistoryQuery.page_size q)) (skipn (Z.to_nat offset) ordered),
            total_count).

(** [HistoryService.search_history] *)
Definition search_history (o : tie_order TaskHistory.t) (st : store) (user_id : Z)
    (search_query : string) (page page_size : Z) : py_result (list TaskHistory.t * Z) :=
  match TaskHistoryQuery.make None None None (Some search_query) page page_size with
  | PErr e => PErr e
  | POk q => get_history o st user_id (Some q)
  end.

(** [HistoryService.get_history_count] *)
Definition get_history_count (st : store) (user_id : Z) : Z :=
  Z.of_nat (List.length (filter (fun h => TaskHistory.user_id h =? user_id) (history st))).

End HistoryService.

(** ** History API ([src/api/history.py]) *)

Module HistoryApi.
(** [total_pages = (total + page_size - 1) // page_size] in the [GET /]
    route. *)
Definition total_pages (total page_size : Z) : Z := (total + page_size - 1) / page_size.
End HistoryApi.

(** ** TaskService ([src/services/task_service.py]) *)

Module TaskService.

(** [TaskService.get_task_by_id] *)
Definition get_task_by_id (st : store) (task_id user_id : Z) : option Task.t :=
  find (fun x => (Task.id x =? task_id) && (Task.user_id x =? user_id)) (tasks st).

(** [TaskService.create_recurring_instance].  Scheduling the notifications
    of the new instance only touches the job store and its failure is
    caught, so it leaves the task store as it is. *)
Definition create_recurring_instance (e : env) (st : store) (original_task : Task.t)
  : result (store * Task.t) :=
  if negb (Task.is_recurring original_task) then Err ValueError
  else match Task.due_date original_task, Task.recurrence_pattern original_task with
  | Some _, Some p =>
      next_due <- Task.calculate_next_occurrence original_task ;;
      let new_task :=
        Task.mk 0 (Task.user_id original_task) (Task.title original_task)
          (Task.description original_task) false (utcnow e) (utcnow e)
          None 1 (Some next_due) (Some p) true
          (Task.reminder_minutes original_task) None in
      Ok (insert_task st new_task)
  | _, _ => Err ValueError
  end.

(** [task.is_recurring and task.due_date and task.recurrence_pattern] *)
Definition recurring_ready (x : Task.t) : bool :=
  Task.is_recurring x && is_some (Task.due_date x) && is_some (Task.recurrence_pattern x).

(** The [try: ... except Exception: logger.error(...)] around the recurring
    instance: on failure the store stays as it was. *)
Definition try_recurring_instance (e : env) (st : store) (x : Task.t) : store :=
  if recurring_ready x then
    match create_recurring_instance e st x with Ok (st', _) => st' | Err _ => st end
  else st.

(** The attributes of [task_data] that [update_task] reads, in order:
    [completed] for [is_being_completed], then one
    [if task_data.<attr> is not None] test per attribute. *)
Definition update_task_reads : list string :=
  ["completed"; "title"; "description"; "completed"; "subitems"; "category"; "tags";
   "status"; "priority"; "shopping_list"; "recursion"; "due_date"]%string.

(** [TaskService.update_task]: [None] for a missing task.  Otherwise the
    first attribute [TaskUpdate] does not declare raises [AttributeError]
    before [session.commit()], so nothing is written (the request's session
    is closed without a commit).  Past the reads, the patched task is
    committed, and a completion writes the [COMPLETED] history entry and
    then the recurring instance, each inside [try/except]; after a failed
    history commit the session is pending rollback and the instance's
    commit raises as well. *)
Definition update_task (e : env) (st : store) (task_id user_id : Z) (task_data : TaskUpdate.t)
  : store * py_result (option Task.t) :=
  match get_task_by_id st task_id user_id with
  | None => (st, POk None)
  | Some task =>
      match find (fun a => negb (existsb (String.eqb a) TaskUpdate.fields)) update_task_reads with
      | Some a => (st, PErr (AttributeError "TaskUpdate" a))
      | None =>
          let was_incomplete := negb (Task.completed task) in
          let is_being_completed :=
            match TaskUpdate.completed task_data with Some true => true | _ => false end in
          let task1 := TaskOps.apply_update task task_data (utcnow e) in
          let st1 := save_task st task1 in
          if was_incomplete && is_being_completed then
            match HistoryService.create_history_entry e st1 task1 COMPLETED user_id with
            | Ok (st2, _) => (try_recurring_instance e st2 task1, POk (Some task1))
            | Err x =>
                if session_usable_after x
                then (try_recurring_instance e st1 task1, POk (Some task1))
                else (st1, POk (Some task1))
            end
          else (st1, POk (Some task1))
      end
  end.

(** [TaskService.delete_task]: [False] for a missing task.  The history
    entry is committed first, inside [try/except].  An exception raised
    while building it ([TaskHistory.__init__]'s [ValueError]) is caught
    before anything reached the session, and the row is deleted.  A failed
    history commit is caught too, but it leaves the session pending
    rollback: the delete's [session.commit()] raises and the row stays. *)
Definition delete_task (e : env) (st : store) (task_id user_id : Z) : store * result bool :=
  match get_task_by_id st task_id user_id with
  | None => (st, Ok false)
  | Some task =>
      match HistoryService.create_history_entry e st task DELETED user_id with
      | Ok (st1, _) => (delete_row st1 (Task.id task), Ok true)
      | Err x =>
          if session_usable_after x then (delete_row st (Task.id task), Ok true)
          else (st, Err DbError)
      end
  end.

(** The module-level names of [task_service.py]: its imports and the class
    it defines.  [HistoryService] and [HistoryActionType] are imported only
    locally, inside [update_task] and [delete_task]. *)
Definition module_globals : list string :=
  ["List"; "Optional"; "datetime"; "Session"; "select";
   "Task"; "TaskCreate"; "TaskUpdate"; "TaskService"]%string.

Definition bound (g : list string) (name : string) : bool :=
  existsb (String.eqb name) g.

(** [TaskService.complete_task], resolving its free names in the module
    namespace [g].  The task mutation and the history row are committed
    together; any exception rolls both back and is re-raised. *)
Definition complete_task_in (g : list string) (e : env) (st : store) (task_id user_id : Z)
  : store * result (option Task.t) :=
  match get_task_by_id st task_id user_id with
  | None => (st, Ok None)
  | Some task =>
      let task1 := TaskOps.mark_completed task (utcnow e) in
      if negb (bound g "HistoryService") then (st, Err (NameError "HistoryService"))
      else if negb (bound g "HistoryActionType") then (st, Err (NameError "HistoryActionType"))
      else match HistoryService.create_history_entry e (save_task st task1) task1
                   COMPLETED user_id with
           | Err x => (st, Err x)
           | Ok (st2, _) => (try_recurring_instance e st2 task1, Ok (Some task1))
           end
  end.

(** [TaskService.complete_task] as the module defines it. *)
Definition complete_task (e : env) (st : store) (task_id user_id : Z)
  : store * result (option Task.t) :=
  complete_task_in module_globals e st task_id user_id.

(** [TaskService.get_task_by_client_id] *)
Definition get_task_by_client_id (st : store) (client_id : string) (user_id : Z)
  : option Task.t :=
  find (fun x => match Task.client_id x with
                 | Some c => String.eqb c client_id
                 | None => false
                 end && (Task.user_id x =? user_id)) (tasks st).

(** [TaskService.get_tasks]: the user's tasks, newest [created_at] first
    (ties in the order [o] of this query), [offset(skip).limit(limit)];
    PostgreSQL rejects a negative [OFFSET] or [LIMIT]. *)
Definition get_tasks (o : tie_order Task.t) (st : store) (user_id skip limit : Z)
  : py_result (list Task.t) :=
  if (skip <? 0) || (limit <? 0) then PErr (PyExc DbError)
  else POk (firstn (Z.to_nat limit)
              (skipn (Z.to_nat skip)
                 (order_by_desc (fun x => dt_instant (Task.created_at x)) o
                    (filter (fun x => Task.user_id x =? user_id) (tasks st))))).

(** The fields [TaskCreate] declares. *)
Definition task_create_fields : list string := ["title"; "description"; "client_id"]%string.

(** [TaskCreate]: a pydantic model; reading an attribute it does not declare
    raises [AttributeError]. *)
Record TaskCreate := mkTaskCreate {
  tc_title : string;
  tc_description : string;
  tc_client_id : option string
}.

(** The attributes of [task_data] the [Task(...)] call of [create_task]
    reads, in the order of its keyword arguments. *)
Definition create_task_reads : list string :=
  ["title"; "description"; "client_id"; "category"; "tags"; "status"; "priority";
   "shopping_list"; "recursion"; "due_date"]%string.

(** [TaskService.create_task]: the keyword arguments are evaluated in order
    and the first attribute [TaskCreate] does not declare raises before the
    row is built; the insert is reached only when all are declared. *)
Definition create_task (e : env) (st : store) (user_id : Z) (task_data : TaskCreate)
  : store * py_result Task.t :=
  match find (fun a => negb (existsb (String.eqb a) task_create_fields)) create_task_reads with
  | Some a => (st, PErr (AttributeError "TaskCreate" a))
  | None =>
      let '(st', x) :=
        insert_task st (Task.mk 0 user_id (tc_title task_data) (tc_description task_data)
                          false (utcnow e) (utcnow e) (tc_client_id task_data) 1 None None
                          false 15 None) in
      (st', POk x)
  end.

End TaskService.

(** ** SchedulerService job ids ([src/services/scheduler_service.py]) *)

Fixpoint digits_rev (fuel : nat) (n : Z) : list Z :=
  match fuel with
  | O => []
  | S f => if n <? 10 then [n] else (n mod 10) :: digits_rev f (n / 10)
  end.

Definition digit_char (d : Z) : Ascii.ascii := Ascii.ascii_of_nat (48 + Z.to_nat d).

(** [str(n)] for a Python int. *)
Definition str_of_Z (n : Z) : string :=
  let ds := rev (digits_rev (Z.to_nat (Z.log2_up (Z.abs n) + 2)) (Z.abs n)) in
  let s := fold_right (fun d acc => String (digit_char d) acc) EmptyString ds in
  if n <? 0 then ("-" ++ s)%string else s.

Module Scheduler.

(** A job of the APScheduler job store: id, run time (an instant) and the
    [args] of [_send_notification_trigger]. *)
Record job := mkJob {
  job_id : string;
  run_at : Z;
  job_task_id : Z;
  job_reminder_minutes : Z
}.

(** [scheduler.add_job(..., id=job_id, replace_existing=True)] *)
Definition add_job (jobs : list job) (j : job) : list job :=
  filter (fun k => negb (String.eqb (job_id k) (job_id j))) jobs ++ [j].

(** [scheduler.remove_job(job_id)]: raises [JobLookupError] when absent. *)
Definition remove_job (jobs : list job) (id : string) : option (list job) :=
  if existsb (fun k => String.eqb (job_id k) id) jobs
  then Some (filter (fun k => negb (String.eqb (job_id k) id)) jobs)
  else None.

Definition reminder_job_id (task_id reminder_minutes : Z) : string :=
  ("notification_" ++ str_of_Z task_id ++ "_" ++ str_of_Z reminder_minutes)%string.

Definition due_job_id (task_id : Z) : string :=
  ("notification_" ++ str_of_Z task_id ++ "_due")%string.

(** [SchedulerService.schedule_notification]; [now] is
    [datetime.now(pytz.UTC)] and times are instants in microseconds. *)
Definition schedule_notification (now : Z) (jobs : list job)
    (task_id : Z) (due_date : Z) (reminder_minutes : Z) : list job :=
  let reminder_time := due_date - reminder_minutes * 60 * 1000000 in
  let jobs1 :=
    if now <? reminder_time
    then add_job jobs (mkJob (reminder_job_id task_id reminder_minutes)
                             reminder_time task_id reminder_minutes)
    else jobs in
  if now <? due_date
  then add_job jobs1 (mkJob (due_job_id task_id) due_date task_id 0)
  else jobs1.

(** [SchedulerService.cancel_notification]: the lookup error of a missing
    job is caught and ignored. *)
Definition cancel_notification (jobs : list job) (task_id : Z) : list job :=
  fold_left (fun js id => match remove_job js id with Some js' => js' | None => js end)
    [("notification_" ++ str_of_Z task_id ++ "_15")%string;
     ("notification_" ++ str_of_Z task_id ++ "_due")%string]
    jobs.


(** [cleanup_old_history_job]: the daily job deletes the history rows with
    [retention_until < datetime.now(pytz.UTC)], the query of
    [HistoryService.cleanup_old_history]; its exceptions are logged and
    swallowed. *)
Definition cleanup_old_history_job (now : datetime) (st : store) : store :=
  fst (HistoryService.cleanup_old_history st now).

(** [scheduler.get_job(job_id)]: the job stored under an id. *)
Definition get_job (jobs : list job) (id : string) : option job :=
  find (fun k => String.eqb (job_id k) id) jobs.

End Scheduler.

(** ** Python [int(s)] for a [str] ([src/api/tasks.py])

    The characters of [s] are read as code points below 256.  [int()]
    strips whitespace at both ends, takes an optional sign, then requires
    decimal digits with single underscores between digits; anything else
    raises [ValueError] ([None] here). *)

Definition py_isspace (c : ascii) : bool :=
  let n := nat_of_ascii c in
  ((9 <=? n)%nat && (n <=? 13)%nat) || ((28 <=? n)%nat && (n <=? 32)%nat)
  || (n =? 133)%nat || (n =? 160)%nat.

Fixpoint lstrip (cs : list ascii) : list ascii :=
  match cs with
  | [] => []
  | c :: r => if py_isspace c then lstrip r else cs
  end.

Definition strip (cs : list ascii) : list ascii := rev (lstrip (rev (lstrip cs))).

Definition is_digit (c : ascii) : bool :=
  let n := nat_of_ascii c in (48 <=? n)%nat && (n <=? 57)%nat.

Definition digit_value (c : ascii) : Z := Z.of_nat (nat_of_ascii c) - 48.

(** The digits after the first one: a digit, or an underscore followed by
    a digit. *)
Fixpoint digits_after (acc : Z) (cs : list ascii) : option Z :=
  match cs with
  | [] => Some acc
  | c :: r =>
      if is_digit c then digits_after (acc * 10 + digit_value c) r
      else if Ascii.eqb c "_" then
        match r with
        | d :: r' => if is_digit d then digits_after (acc * 10 + digit_value d) r' else None
        | [] => None
        end
      else None
  end.

Definition parse_digits (cs : list ascii) : option Z :=
  match cs with
  | c :: r => if is_digit c then digits_after (digit_value c) r else None
  | [] => None
  end.

Definition py_int (s : string) : option Z :=
  match strip (list_ascii_of_string s) with
  | c :: r =>
      if Ascii.eqb c "-" then option_map Z.opp (parse_digits r)
      else if Ascii.eqb c "+" then parse_digits r
      else parse_digits (c :: r)
  | [] => None
  end.

(** ** Task API routes ([src/api/tasks.py]), after the user is resolved

    [GET], [PUT] and [DELETE /tasks/{task_id}] run [int(task_id)] and the
    service call by server id inside one [try]; on [ValueError], from
    either, they look the string up as a client id.  [None] / [false] is
    the route's 404; any other exception propagates. *)

Module TaskApi.

Definition get_task (st : store) (task_id : string) (user_id : Z) : option Task.t :=
  match py_int task_id with
  | Some i => TaskService.get_task_by_id st i user_id
  | None => TaskService.get_task_by_client_id st task_id user_id
  end.

Definition update_task (e : env) (st : store) (task_id : string) (user_id : Z)
    (task_data : TaskUpdate.t) : store * py_result (option Task.t) :=
  let by_client_id (st' : store) :=
    match TaskService.get_task_by_client_id st' task_id user_id with
    | None => (st', POk None)
    | Some task_obj => TaskService.update_task e st' (Task.id task_obj) user_id task_data
    end in
  match py_int task_id with
  | Some i =>
      match TaskService.update_task e st i user_id task_data with
      | (st', PErr (PyExc ValueError)) => by_client_id st'
      | r => r
      end
  | None => by_client_id st
  end.

Definition delete_task (e : env) (st : store) (task_id : string) (user_id : Z)
  : store * result bool :=
  let by_client_id (st' : store) :=
    match TaskService.get_task_by_client_id st' task_id user_id with
    | None => (st', Ok false)
    | Some task_obj => TaskService.delete_task e st' (Task.id task_obj) user_id
    end in
  match py_int task_id with
  | Some i =>
      match TaskService.delete_task e st i user_id with
      | (st', Err ValueError) => by_client_id st'
      | r => r
      end
  | None => by_client_id st
  end.

End TaskApi.


(** ** Concrete fixtures *)

Module Fixtures.

Definition now0 : datetime := mkDT 2026 2 1 9 0 0 0 None.
Definition env_ok : env := mkEnv now0 true.
(** The action time of a call late in year 9998. *)
Definition env_year_9998 : env := mkEnv (mkDT 9998 6 1 9 0 0 0 None) true.

Definition due0 : datetime := mkDT 2026 2 5 10 0 0 0 utc.

(** A weekly task of user 7, not yet completed, reminder 30 minutes ahead. *)
Definition weekly_task : Task.t :=
  Task.mk 1 7 "Water plants" "balcony" false now0 now0 (Some "c-1"%string) 1
    (Some due0) (Some RP_WEEKLY) true 30 (Some (mkDT 2026 2 12 10 0 0 0 utc)).

(** A one-off task of user 7, already completed. *)
Definition done_task : Task.t :=
  Task.mk 2 7 "Pay rent" "" true now0 now0 None 3 None None false 15 None.

(** A one-off task of user 7, not yet completed. *)
Definition open_task : Task.t :=
  Task.mk 3 7 "Call bank" "" false now0 now0 None 1 None None false 15 None.

Definition st0 : store := mkStore [weekly_task; done_task; open_task] [] 4 1.

Definition complete_patch : TaskUpdate.t := TaskUpdate.mk None None (Some true).
Definition title_patch (s : string) : TaskUpdate.t := TaskUpdate.mk (Some s) None None.

End Fixtures.

(** Hour, minute, second, microsecond and timezone agree. *)
Definition same_clock (a b : datetime) : Prop :=
  hour a = hour b /\ minute a = minute b /\ second a = second b /\
  microsecond a = microsecond b /\ tzinfo a = tzinfo b.

(** The row [create_recurring_instance] inserts for [x] with next due date
    [n], given the id the database assigns to it. *)
Definition recurring_row (e : env) (x : Task.t) (n : datetime) (p : RecurrencePattern)
    (i : Z) : Task.t :=
  Task.mk i (Task.user_id x) (Task.title x) (Task.description x) false (utcnow e)
    (utcnow e) None 1 (Some n) (Some p) true (Task.reminder_minutes x) None.


(** * Proofs *)

(** ** Calendar arithmetic *)

Example next_monthly_jan31 :
  RecurrenceCalculator.calculate_next_occurrence (mkDT 2026 1 31 10 0 0 0 utc) MONTHLY
  = Ok (mkDT 2026 2 28 10 0 0 0 utc).
Proof. reflexivity. Qed.

Example next_yearly_feb29 :
  RecurrenceCalculator.calculate_next_occurrence (mkDT 2024 2 29 10 0 0 0 utc) YEARLY
  = Ok (mkDT 2025 2 28 10 0 0 0 utc).
Proof. reflexivity. Qed.

Example next_weekly_feb :
  RecurrenceCalculator.calculate_next_occurrence (mkDT 2026 2 25 10 0 0 0 utc) WEEKLY
  = Ok (mkDT 2026 3 4 10 0 0 0 utc).
Proof. reflexivity. Qed.

Lemma div_step (k y : Z) : 0 < k ->
  y / k - (y - 1) / k = (if y mod k =? 0 then 1 else 0).
Proof.
  intros Hk. destruct (Z.eqb_spec (y mod k) 0) as [E|E].
  - pose proof (Z.div_mod y k ltac:(lia)) as D.
    pose proof (Z.div_mod (y - 1) k ltac:(lia)) as D'.
    pose proof (Z.mod_pos_bound (y - 1) k Hk) as B'.
    rewrite E in D. nia.
  - pose proof (Z.div_mod y k ltac:(lia)) as D.
    pose proof (Z.div_mod (y - 1) k ltac:(lia)) as D'.
    pose proof (Z.mod_pos_bound (y - 1) k Hk) as B'.
    pose proof (Z.mod_pos_bound y k Hk) as B.
    nia.
Qed.

Lemma mod_zero_divides (y a b : Z) : 0 < a -> 0 < b ->
  y mod (a * b) = 0 -> y mod a = 0.
Proof.
  intros Ha Hb H. apply Z.mod_divide in H; [|lia].
  apply Z.mod_divide; [lia|]. destruct H as [q Hq]. exists (q * b). lia.
Qed.

Lemma days_before_year_succ (y : Z) :
  days_before_year (y + 1) = days_before_year y + 365 + (if is_leap y then 1 else 0).
Proof.
  unfold days_before_year, is_leap.
  replace (y + 1 - 1) with y by lia.
  pose proof (div_step 4 y ltac:(lia)) as H4.
  pose proof (div_step 100 y ltac:(lia)) as H100.
  pose proof (div_step 400 y ltac:(lia)) as H400.
  destruct (Z.eqb_spec (y mod 400) 0) as [E400|E400].
  - assert (E100 : y mod 100 = 0) by (apply (mod_zero_divides y 100 4); [lia|lia|exact E400]).
    assert (E4 : y mod 4 = 0) by (apply (mod_zero_divides y 4 100); [lia|lia|exact E400]).
    rewrite E4, E100 in *. simpl in *. lia.
  - destruct (Z.eqb_spec (y mod 100) 0) as [E100|E100].
    + assert (E4 : y mod 4 = 0) by (apply (mod_zero_divides y 4 25); [lia|lia|exact E100]).
      rewrite E4 in *. simpl in *. lia.
    + destruct (Z.eqb_spec (y mod 4) 0); simpl in *; lia.
Qed.

Lemma days_in_month_bounds (y m : Z) : 28 <= days_in_month y m <= 31.
Proof.
  unfold days_in_month.
  destruct (m =? 2); [destruct (is_leap y); lia|].
  destruct ((m =? 4) || (m =? 6) || (m =? 9) || (m =? 11)); lia.
Qed.

Lemma days_before_month_succ (y m : Z) : 1 <= m <= 11 ->
  days_before_month y (m + 1) = days_before_month y m + days_in_month y m.
Proof.
  intros Hm.
  assert (m = 1 \/ m = 2 \/ m = 3 \/ m = 4 \/ m = 5 \/ m = 6 \/ m = 7 \/
          m = 8 \/ m = 9 \/ m = 10 \/ m = 11) as Hc by lia.
  unfold days_before_month, days_in_month.
  repeat destruct Hc as [Hc|Hc]; subst; simpl; destruct (is_leap y); reflexivity.
Qed.

Lemma days_before_month_dec (y : Z) :
  days_before_month y 12 + days_in_month y 12 = 365 + (if is_leap y then 1 else 0).
Proof. unfold days_before_month, days_in_month; simpl; destruct (is_leap y); reflexivity. Qed.

Lemma days_before_month_jan (y : Z) : days_before_month y 1 = 0.
Proof. reflexivity. Qed.

Ltac valid_unfold H :=
  unfold valid_dt in H; rewrite ?andb_true_iff, ?Z.leb_le, ?Z.ltb_lt in H.

Ltac valid_fold :=
  unfold valid_dt; rewrite ?andb_true_iff, ?Z.leb_le, ?Z.ltb_lt.

Lemma next_day_props (d r : datetime) :
  valid_dt d = true -> next_day d = Ok r ->
  valid_dt r = true /\ toordinal r = toordinal d + 1 /\ same_clock d r /\
  dt_lt d r = true.
Proof.
  intros Hv Hn. pose proof (days_in_month_bounds (year d) (month d)) as Bd.
  pose proof Hv as Hv'. valid_unfold Hv'.
  unfold next_day in Hn.
  destruct (Z.ltb_spec (day d) (days_in_month (year d) (month d))) as [L|L].
  - injection Hn as <-. unfold toordinal, same_clock, dt_lt, dt_fields; simpl.
    rewrite !Z.eqb_refl. rewrite (proj2 (Z.ltb_lt (day d) (day d + 1))) by lia.
    rewrite !orb_true_r. repeat split; try reflexivity; [|lia].
    valid_fold; simpl; lia.
  - destruct (Z.ltb_spec (month d) 12) as [M|M].
    + injection Hn as <-. unfold toordinal, same_clock, dt_lt, dt_fields; simpl.
      rewrite Z.eqb_refl. rewrite (proj2 (Z.ltb_lt (month d) (month d + 1))) by lia.
      rewrite orb_true_r. repeat split; try reflexivity.
      * pose proof (days_in_month_bounds (year d) (month d + 1)).
        valid_fold; simpl; lia.
      * rewrite days_before_month_succ by lia. lia.
    + destruct (Z.ltb_spec (year d) MAXYEAR) as [Y|Y]; [|discriminate].
      injection Hn as <-. unfold toordinal, same_clock, dt_lt, dt_fields; simpl.
      rewrite (proj2 (Z.ltb_lt (year d) (year d + 1))) by lia.
      repeat split; try reflexivity.
      * pose proof (days_in_month_bounds (year d + 1) 1).
        valid_fold; simpl. unfold MINYEAR, MAXYEAR in *. lia.
      * assert (month d = 12) as E by lia. assert (day d = days_in_month (year d) 12) as E'
          by (rewrite E in L, Hv'; lia).
        rewrite days_before_year_succ, days_before_month_jan.
        pose proof (days_before_month_dec (year d)). rewrite E, E'. lia.
Qed.

Lemma lex_lt_trans (xs ys zs : list Z) :
  lex_lt xs ys = true -> lex_lt ys zs = true -> lex_lt xs zs = true.
Proof.
  revert ys zs; induction xs as [|x xs IH]; intros [|y ys] [|z zs]; simpl; try discriminate.
  rewrite !orb_true_iff, !andb_true_iff, !Z.ltb_lt, !Z.eqb_eq.
  intros [H1|[H1 H1']] [H2|[H2 H2']]; subst.
  - left; lia.
  - left; lia.
  - left; lia.
  - right; split; [reflexivity|]. eapply IH; eassumption.
Qed.

Lemma dt_lt_trans (a b c : datetime) :
  dt_lt a b = true -> dt_lt b c = true -> dt_lt a c = true.
Proof. unfold dt_lt; apply lex_lt_trans. Qed.

(** Starting from a valid date that is not near the end of year 9999, up to
    [30 - k] whole-day steps never overflow. *)
Lemma add_days_props (n : nat) : forall (d : datetime) (k : Z),
  valid_dt d = true ->
  (year d < MAXYEAR \/ (year d = MAXYEAR /\ month d = 1 /\ day d <= k)) ->
  0 <= k -> k + Z.of_nat n <= 30 ->
  exists r, add_days d n = Ok r /\ valid_dt r = true /\
    toordinal r = toordinal d + Z.of_nat n /\ same_clock d r /\
    ((n > 0)%nat -> dt_lt d r = true).
Proof.
  induction n as [|n IH]; intros d k Hv Hy Hk Hn.
  - exists d. simpl. repeat split; try reflexivity; auto; [lia|]. intros; lia.
  - assert (exists r1, next_day d = Ok r1) as [r1 Hr1].
    { unfold next_day. pose proof Hv as Hv'. valid_unfold Hv'.
      destruct (day d <? days_in_month (year d) (month d)) eqn:E1; [eexists; reflexivity|].
      destruct (month d <? 12) eqn:E2; [eexists; reflexivity|].
      destruct (Z.ltb_spec (year d) MAXYEAR); [eexists; reflexivity|].
      exfalso. apply Z.ltb_ge in E1. apply Z.ltb_ge in E2.
      pose proof (days_in_month_bounds (year d) (month d)). lia. }
    destruct (next_day_props d r1 Hv Hr1) as (Hv1 & Ho1 & Hc1 & Hl1).
    assert (Hy1 : year r1 < MAXYEAR \/ (year r1 = MAXYEAR /\ month r1 = 1 /\ day r1 <= k + 1)).
    { unfold next_day in Hr1. pose proof (days_in_month_bounds (year d) (month d)).
      destruct (Z.ltb_spec (day d) (days_in_month (year d) (month d))).
      - injection Hr1 as <-; simpl. lia.
      - destruct (Z.ltb_spec (month d) 12).
        + injection Hr1 as <-; simpl.
          destruct Hy as [Hy|(Hy & Hm & Hd)]; [lia|].
          assert (days_in_month (year d) 1 = 31) by reflexivity.
          rewrite Hm in *. lia.
        + destruct (Z.ltb_spec (year d) MAXYEAR); [|discriminate].
          injection Hr1 as <-; simpl. lia. }
    destruct (IH r1 (k + 1) Hv1 Hy1 ltac:(lia) ltac:(lia)) as (r & Hr & Hv2 & Ho2 & Hc2 & Hl2).
    exists r. simpl. rewrite Hr1. simpl. rewrite Hr.
    split; [reflexivity|]. split; [assumption|]. split; [lia|].
    split.
    + destruct Hc1 as (? & ? & ? & ? & ?); destruct Hc2 as (? & ? & ? & ? & ?).
      repeat split; congruence.
    + intros _. destruct n as [|n'].
      * simpl in Hr. injection Hr as <-. exact Hl1.
      * eapply dt_lt_trans; [exact Hl1|]. apply Hl2. lia.
Qed.

Lemma is_valid_cases (p : string) : is_valid p = true ->
  p = DAILY \/ p = WEEKLY \/ p = BI_WEEKLY \/ p = MONTHLY \/ p = YEARLY.
Proof.
  unfold is_valid, all_patterns; simpl.
  rewrite !orb_true_iff, !String.eqb_eq. intuition discriminate.
Qed.

Lemma year_succ_range (d : datetime) : valid_dt d = true -> year d < MAXYEAR ->
  (MINYEAR <=? year d + 1) && (year d + 1 <=? MAXYEAR) = true.
Proof.
  intros Hv Hy. valid_unfold Hv. apply andb_true_iff; rewrite !Z.leb_le.
  unfold MINYEAR, MAXYEAR in *. lia.
Qed.

(** ** C5: RecurrenceCalculator.calculate_next_occurrence *)

(** C5 (as stated): for every timezone-aware datetime [d] and valid pattern
    [p], [RecurrenceCalculator.calculate_next_occurrence d p] returns a datetime strictly after
    [d].  This fails at the end of Python's datetime range: on
    9999-12-31T10:00Z the daily step raises [OverflowError]. *)
Lemma C5_next_occurrence_end_of_range :
  ~ (forall (d : datetime) (p : string),
       valid_dt d = true -> tzinfo d <> None -> is_valid p = true ->
       exists r, RecurrenceCalculator.calculate_next_occurrence d p = Ok r /\ dt_lt d r = true).
Proof.
  intros H.
  destruct (H (mkDT 9999 12 31 10 0 0 0 utc) DAILY eq_refl ltac:(discriminate) eq_refl)
    as (r & Hr & _).
  vm_compute in Hr. discriminate.
Qed.

(** C5 (amended): for every valid timezone-aware datetime [d] whose year is
    below 9999 and every valid pattern [p], [RecurrenceCalculator.calculate_next_occurrence d p]
    returns a datetime [r] strictly after [d], with the same [tzinfo] and the
    same wall-clock time; [r] is 1, 7 or 14 days (ordinals) after [d] for
    daily, weekly and bi-weekly, and for monthly and yearly it is the next
    month (resp. the same month of the next year) with the day clamped to
    that month's length. *)
Theorem C5_calculate_next_occurrence_spec (d : datetime) (p : string) :
  valid_dt d = true -> tzinfo d <> None -> is_valid p = true -> year d < MAXYEAR ->
  exists r, RecurrenceCalculator.calculate_next_occurrence d p = Ok r /\
    dt_lt d r = true /\ tzinfo r = tzinfo d /\ same_clock d r /\
    (p = DAILY -> toordinal r = toordinal d + 1) /\
    (p = WEEKLY -> toordinal r = toordinal d + 7) /\
    (p = BI_WEEKLY -> toordinal r = toordinal d + 14) /\
    (p = MONTHLY ->
       year r = (if month d =? 12 then year d + 1 else year d) /\
       month r = (if month d =? 12 then 1 else month d + 1) /\
       day r = Z.min (days_in_month (year r) (month r)) (day d)) /\
    (p = YEARLY ->
       year r = year d + 1 /\ month r = month d /\
       day r = Z.min (days_in_month (year r) (month r)) (day d)).
Proof.
  intros Hv Htz Hp Hy.
  assert (Hpre : ~ String.eqb p "" = true)
    by (destruct (is_valid_cases p Hp) as [->|[->|[->|[->| ->]]]]; discriminate).
  unfold RecurrenceCalculator.calculate_next_occurrence.
  destruct (String.eqb p "") eqn:E0; [contradiction|]. rewrite Hp. cbv beta iota delta [negb].
  destruct (tzinfo d) as [z|] eqn:Etz; [|contradiction].
  destruct (is_valid_cases p Hp) as [->|[->|[->|[->| ->]]]];
    cbv beta iota delta [DAILY WEEKLY BI_WEEKLY MONTHLY YEARLY String.eqb Ascii.eqb Bool.eqb] in |- *.
  - destruct (add_days_props 1 d 0 Hv (or_introl Hy) ltac:(lia) ltac:(simpl; lia))
      as (r & Hr & _ & Ho & Hc & Hl).
    exists r. rewrite Hr. destruct Hc as (H1 & H2 & H3 & H4 & H5).
    repeat split; auto; try congruence; try discriminate; try (apply Hl; lia);
      intros; simpl in Ho; lia.
  - destruct (add_days_props 7 d 0 Hv (or_introl Hy) ltac:(lia) ltac:(simpl; lia))
      as (r & Hr & _ & Ho & Hc & Hl).
    exists r. rewrite Hr. destruct Hc as (H1 & H2 & H3 & H4 & H5).
    repeat split; auto; try congruence; try discriminate; try (apply Hl; lia);
      intros; simpl in Ho; lia.
  - destruct (add_days_props 14 d 0 Hv (or_introl Hy) ltac:(lia) ltac:(simpl; lia))
      as (r & Hr & _ & Ho & Hc & Hl).
    exists r. rewrite Hr. destruct Hc as (H1 & H2 & H3 & H4 & H5).
    repeat split; auto; try congruence; try discriminate; try (apply Hl; lia);
      intros; simpl in Ho; lia.
  - unfold add_relativedelta_months1, dt_replace_ymd.
    pose proof Hv as Hv'. valid_unfold Hv'.
    assert (Hr : (MINYEAR <=? (if month d =? 12 then year d + 1 else year d)) &&
                 ((if month d =? 12 then year d + 1 else year d) <=? MAXYEAR) = true).
    { destruct (month d =? 12); [apply year_succ_range; auto|].
      apply andb_true_iff; rewrite !Z.leb_le. lia. }
    rewrite Hr. eexists. split; [reflexivity|].
    unfold dt_lt, dt_fields; simpl.
    repeat split; try reflexivity; try discriminate; try (simpl; congruence).
    destruct (Z.eqb_spec (month d) 12) as [E|E]; simpl.
    + rewrite (proj2 (Z.ltb_lt (year d) (year d + 1))) by lia. reflexivity.
    + rewrite Z.eqb_refl, (proj2 (Z.ltb_lt (month d) (month d + 1))) by lia.
      rewrite orb_true_r. reflexivity.
  - unfold add_relativedelta_years, dt_replace_ymd.
    rewrite (year_succ_range d Hv Hy). eexists. split; [reflexivity|].
    unfold dt_lt, dt_fields; simpl.
    rewrite (proj2 (Z.ltb_lt (year d) (year d + 1))) by lia.
    repeat split; reflexivity || discriminate || (simpl; congruence).
Qed.

Lemma C5_calculate_next_occurrence_spec_witness :
  valid_dt (mkDT 2026 1 31 10 0 0 0 utc) = true /\
  exists r, RecurrenceCalculator.calculate_next_occurrence (mkDT 2026 1 31 10 0 0 0 utc) MONTHLY = Ok r /\
    dt_lt (mkDT 2026 1 31 10 0 0 0 utc) r = true.
Proof.
  split; [reflexivity|].
  destruct (C5_calculate_next_occurrence_spec (mkDT 2026 1 31 10 0 0 0 utc) MONTHLY
              eq_refl ltac:(discriminate) eq_refl ltac:(unfold MAXYEAR; simpl; lia))
    as (r & Hr & Hl & _).
  exists r. split; assumption.
Defined.

(** ** History entries *)

Lemma from_task_spec (now : datetime) (task : Task.t) (a : HistoryActionType)
    (by_ : Z) (h : TaskHistory.t) :
  TaskHistory.from_task now task a by_ = Ok h ->
  TaskHistory.user_id h = Task.user_id task /\
  TaskHistory.original_task_id h = Task.id task /\
  TaskHistory.title h = Task.title task /\
  TaskHistory.description h = Task.description task /\
  TaskHistory.completed h = Task.completed task /\
  TaskHistory.due_date h = Task.due_date task /\
  TaskHistory.recurrence_pattern h = option_map rp_value (Task.recurrence_pattern task) /\
  TaskHistory.action_type h = a /\
  TaskHistory.can_restore h = action_eqb a DELETED.
Proof.
  unfold TaskHistory.from_task, TaskHistory.init. simpl.
  destruct (add_relativedelta_years 2 now) as [r|x]; simpl; [|discriminate].
  unfold TaskHistory.validate_action_type; simpl.
  destruct a; simpl; intros H; injection H as <-; simpl; repeat split.
Qed.

Lemma from_task_total (now : datetime) (task : Task.t) (a : HistoryActionType) (by_ : Z) :
  MINYEAR <= year now + 2 <= MAXYEAR ->
  exists h, TaskHistory.from_task now task a by_ = Ok h.
Proof.
  intros Hy. unfold TaskHistory.from_task, TaskHistory.init. simpl.
  unfold add_relativedelta_years, dt_replace_ymd.
  replace ((MINYEAR <=? year now + 2) && (year now + 2 <=? MAXYEAR)) with true
    by (symmetry; apply andb_true_iff; rewrite !Z.leb_le; lia).
  simpl. unfold TaskHistory.validate_action_type; simpl.
  destruct a; simpl; eexists; reflexivity.
Qed.

Lemma create_history_entry_ok (e : env) (st : store) (task : Task.t)
    (a : HistoryActionType) (by_ : Z) :
  history_db_ok e = true -> MINYEAR <= year (utcnow e) + 2 <= MAXYEAR ->
  exists h, TaskHistory.from_task (utcnow e) task a by_ = Ok h /\
    HistoryService.create_history_entry e st task a by_ = Ok (insert_history st h).
Proof.
  intros Hdb Hy. destruct (from_task_total (utcnow e) task a by_ Hy) as [h Hh].
  exists h. split; [exact Hh|].
  unfold HistoryService.create_history_entry. rewrite Hh. simpl. rewrite Hdb. reflexivity.
Qed.

Lemma create_history_entry_fail (e : env) (st : store) (task : Task.t)
    (a : HistoryActionType) (by_ : Z) :
  history_db_ok e = false ->
  HistoryService.create_history_entry e st task a by_ = Err DbError \/
  HistoryService.create_history_entry e st task a by_ = Err ValueError.
Proof.
  intros Hdb. unfold HistoryService.create_history_entry.
  destruct (TaskHistory.from_task (utcnow e) task a by_) as [h|x] eqn:E; simpl.
  - rewrite Hdb. left; reflexivity.
  - unfold TaskHistory.from_task, TaskHistory.init in E. simpl in E.
    destruct (add_relativedelta_years 2 (utcnow e)) as [r|y] eqn:E2; simpl in E.
    + unfold TaskHistory.validate_action_type in E; simpl in E.
      destruct a; simpl in E; discriminate.
    + unfold add_relativedelta_years, dt_replace_ymd in E2.
      destruct (_ && _); [discriminate|]. injection E2 as <-. injection E as <-.
      right; reflexivity.
Qed.

Lemma insert_history_fields (st st' : store) (h h' : TaskHistory.t) :
  insert_history st h = (st', h') ->
  history st' = history st ++ [h'] /\ tasks st' = tasks st /\
  TaskHistory.user_id h' = TaskHistory.user_id h /\
  TaskHistory.original_task_id h' = TaskHistory.original_task_id h /\
  TaskHistory.title h' = TaskHistory.title h /\
  TaskHistory.description h' = TaskHistory.description h /\
  TaskHistory.completed h' = TaskHistory.completed h /\
  TaskHistory.due_date h' = TaskHistory.due_date h /\
  TaskHistory.recurrence_pattern h' = TaskHistory.recurrence_pattern h /\
  TaskHistory.action_type h' = TaskHistory.action_type h /\
  TaskHistory.can_restore h' = TaskHistory.can_restore h.
Proof. unfold insert_history. intros E; injection E as <- <-. simpl. repeat split. Qed.

Lemma from_task_out_of_range (now : datetime) (task : Task.t) (a : HistoryActionType) (by_ : Z) :
  ~ (MINYEAR <= year now + 2 <= MAXYEAR) ->
  TaskHistory.from_task now task a by_ = Err ValueError.
Proof.
  intros Hy. unfold TaskHistory.from_task, TaskHistory.init. simpl.
  unfold add_relativedelta_years, dt_replace_ymd.
  replace ((MINYEAR <=? year now + 2) && (year now + 2 <=? MAXYEAR)) with false.
  - reflexivity.
  - symmetry. apply Bool.not_true_iff_false. rewrite andb_true_iff, !Z.leb_le. exact Hy.
Qed.

Lemma create_history_entry_out_of_range (e : env) (st : store) (task : Task.t)
    (a : HistoryActionType) (by_ : Z) :
  ~ (MINYEAR <= year (utcnow e) + 2 <= MAXYEAR) ->
  HistoryService.create_history_entry e st task a by_ = Err ValueError.
Proof.
  intros Hy. unfold HistoryService.create_history_entry.
  rewrite (from_task_out_of_range _ _ _ _ Hy). reflexivity.
Qed.

Lemma create_history_entry_db_fails (e : env) (st : store) (task : Task.t)
    (a : HistoryActionType) (by_ : Z) :
  history_db_ok e = false -> MINYEAR <= year (utcnow e) + 2 <= MAXYEAR ->
  HistoryService.create_history_entry e st task a by_ = Err DbError.
Proof.
  intros Hdb Hy. destruct (from_task_total (utcnow e) task a by_ Hy) as [h Hh].
  unfold HistoryService.create_history_entry. rewrite Hh. simpl. rewrite Hdb. reflexivity.
Qed.

(** ** C1: TaskService.delete_task *)

(** C1 (as stated): a delete whose history write fails is aborted and
    leaves the task row unchanged.  At an action time in year 9998 the
    entry's [retention_until], two years on, is past year 9999, so building
    the [TaskHistory] row raises [ValueError]; [delete_task] catches it and
    still deletes task 1, reporting success with no history entry. *)
Lemma C1_delete_entry_error_still_deletes :
  let '(st', r) := TaskService.delete_task Fixtures.env_year_9998 Fixtures.st0 1 7 in
  r = Ok true /\ TaskService.get_task_by_id st' 1 7 = None /\ history st' = [] /\
  TaskService.get_task_by_id Fixtures.st0 1 7 = Some Fixtures.weekly_task.
Proof. vm_compute. repeat split. Qed.

(** C1 (amended): for an owned task [T], [delete_task] first builds and
    commits the history entry, then deletes the row in a second commit.
    - Entry built and committed: one entry with action [DELETED],
      [can_restore = True] and [T]'s snapshot is appended, [T]'s row is
      removed, and the result is [True].
    - Entry built, its commit failed: the session is pending rollback, the
      delete's commit raises, and the store is unchanged.
    - Entry not built (its [retention_until], two years after the action
      time, is outside years 1..9999): the [ValueError] is caught and
      logged, no entry is written, [T]'s row is removed, and the result is
      [True]. *)
Theorem C1_delete_task_history_then_delete (e : env) (st : store) (task_id user_id : Z)
    (task : Task.t) :
  TaskService.get_task_by_id st task_id user_id = Some task ->
  let '(st', r) := TaskService.delete_task e st task_id user_id in
  (MINYEAR <= year (utcnow e) + 2 <= MAXYEAR -> history_db_ok e = true ->
     r = Ok true /\
     tasks st' = filter (fun u => negb (Task.id u =? Task.id task)) (tasks st) /\
     exists h, history st' = history st ++ [h] /\
       TaskHistory.action_type h = DELETED /\ TaskHistory.can_restore h = true /\
       TaskHistory.original_task_id h = Task.id task /\
       TaskHistory.user_id h = Task.user_id task /\
       TaskHistory.title h = Task.title task /\
       TaskHistory.description h = Task.description task /\
       TaskHistory.completed h = Task.completed task /\
       TaskHistory.due_date h = Task.due_date task /\
       TaskHistory.recurrence_pattern h = option_map rp_value (Task.recurrence_pattern task)) /\
  (MINYEAR <= year (utcnow e) + 2 <= MAXYEAR -> history_db_ok e = false ->
     r = Err DbError /\ st' = st) /\
  (~ (MINYEAR <= year (utcnow e) + 2 <= MAXYEAR) ->
     r = Ok true /\
     tasks st' = filter (fun u => negb (Task.id u =? Task.id task)) (tasks st) /\
     history st' = history st).
Proof.
  intros Hget. unfold TaskService.delete_task. rewrite Hget.
  destruct (Z_le_dec MINYEAR (year (utcnow e) + 2)) as [Y1|Y1];
    [destruct (Z_le_dec (year (utcnow e) + 2) MAXYEAR) as [Y2|Y2]|].
  - assert (Hy : MINYEAR <= year (utcnow e) + 2 <= MAXYEAR) by lia.
    destruct (history_db_ok e) eqn:Hdb.
    + destruct (create_history_entry_ok e st task DELETED user_id Hdb Hy) as (h & Hf & Hc).
      rewrite Hc. destruct (insert_history st h) as [st1 h1] eqn:Ei.
      destruct (insert_history_fields st st1 h h1 Ei)
        as (Hh & Ht & F1 & F2 & F3 & F4 & F5 & F6 & F7 & F8 & F9).
      destruct (from_task_spec _ _ _ _ _ Hf) as (G1 & G2 & G3 & G4 & G5 & G6 & G7 & G8 & G9).
      split; [|split; intros; [discriminate|contradiction]].
      intros _ _. split; [reflexivity|]. split; [simpl; rewrite Ht; reflexivity|].
      exists h1. simpl in G9. simpl. rewrite Hh. repeat split; congruence.
    + rewrite (create_history_entry_db_fails e st task DELETED user_id Hdb Hy). simpl.
      split; [intros; discriminate|]. split; [auto|intros; contradiction].
  - rewrite (create_history_entry_out_of_range e st task DELETED user_id ltac:(lia)). simpl.
    split; [intros; lia|]. split; [intros; lia|]. intros _. auto.
  - rewrite (create_history_entry_out_of_range e st task DELETED user_id ltac:(lia)). simpl.
    split; [intros; lia|]. split; [intros; lia|]. intros _. auto.
Qed.

Lemma C1_delete_task_history_then_delete_witness :
  TaskService.get_task_by_id Fixtures.st0 1 7 = Some Fixtures.weekly_task /\
  snd (TaskService.delete_task Fixtures.env_ok Fixtures.st0 1 7) = Ok true.
Proof.
  split; [reflexivity|].
  pose proof (C1_delete_task_history_then_delete Fixtures.env_ok Fixtures.st0 1 7
                Fixtures.weekly_task eq_refl) as H.
  destruct (TaskService.delete_task Fixtures.env_ok Fixtures.st0 1 7) as [st' r].
  destruct H as [H _]. destruct H as [Hr _]; [vm_compute; split; discriminate|reflexivity|].
  exact Hr.
Defined.

(** ** Store lemmas *)

Lemma get_task_by_id_in (st : store) (task_id user_id : Z) (task : Task.t) :
  TaskService.get_task_by_id st task_id user_id = Some task ->
  In task (tasks st) /\ Task.id task = task_id /\ Task.user_id task = user_id.
Proof.
  unfold TaskService.get_task_by_id. intros H.
  pose proof (find_some _ _ H) as [Hin Hp].
  apply andb_true_iff in Hp as [H1 H2]. apply Z.eqb_eq in H1, H2. auto.
Qed.

(** ** update_task and complete_task as the module defines them *)

(** [TaskUpdate] does not declare [category], the first attribute of
    [update_task_reads] outside [TaskUpdate.fields]. *)
Lemma update_task_first_undeclared :
  find (fun a => negb (existsb (String.eqb a) TaskUpdate.fields)) TaskService.update_task_reads
  = Some "category"%string.
Proof. reflexivity. Qed.

Lemma update_task_raises (e : env) (st : store) (task_id user_id : Z) (patch : TaskUpdate.t) :
  TaskService.update_task e st task_id user_id patch =
  match TaskService.get_task_by_id st task_id user_id with
  | None => (st, POk None)
  | Some _ => (st, PErr (AttributeError "TaskUpdate" "category"))
  end.
Proof.
  unfold TaskService.update_task. rewrite update_task_first_undeclared.
  destruct (TaskService.get_task_by_id st task_id user_id); reflexivity.
Qed.

Lemma complete_task_raises (e : env) (st : store) (task_id user_id : Z) :
  TaskService.complete_task e st task_id user_id =
  match TaskService.get_task_by_id st task_id user_id with
  | None => (st, Ok None)
  | Some _ => (st, Err (NameError "HistoryService"))
  end.
Proof.
  unfold TaskService.complete_task, TaskService.complete_task_in.
  destruct (TaskService.get_task_by_id st task_id user_id); reflexivity.
Qed.

(** ** C2: TaskService.complete_task on an already completed task *)

(** C2 (code bug): [complete_task] raises [NameError] for every existing
    task, completed or not.  Its body uses [HistoryService] and
    [HistoryActionType], which [task_service.py] imports only inside
    [update_task] and [delete_task], never at module level.  The exception
    is raised before any write, so the store is unchanged: no conflict is
    reported for a completed task, and an open task is never completed. *)
Theorem C2_complete_task_name_error (e : env) (st : store) (task_id user_id : Z)
    (task : Task.t) :
  TaskService.get_task_by_id st task_id user_id = Some task ->
  TaskService.complete_task e st task_id user_id = (st, Err (NameError "HistoryService")).
Proof. intros Hget. rewrite complete_task_raises, Hget. reflexivity. Qed.

Lemma C2_complete_task_name_error_witness :
  Task.completed Fixtures.done_task = true /\
  TaskService.complete_task Fixtures.env_ok Fixtures.st0 2 7
    = (Fixtures.st0, Err (NameError "HistoryService")).
Proof.
  split; [reflexivity|].
  exact (C2_complete_task_name_error Fixtures.env_ok Fixtures.st0 2 7 Fixtures.done_task eq_refl).
Defined.

(** ** C6: completing through update_task versus complete_task *)

(** C6 (code bug): the completion cascade is written twice, once in
    [update_task] and once in [complete_task], and as the module stands
    neither reaches it.  For every existing task and every patch,
    [update_task] raises [AttributeError] ([task_data.category] is not a
    field of [TaskUpdate]) and [complete_task] raises [NameError]
    ([HistoryService] is not bound in the module); both leave the store
    unchanged, so neither writes a history entry or a recurring instance. *)
Theorem C6_update_and_complete_raise_differently (e : env) (st : store) (task_id user_id : Z)
    (task : Task.t) (patch : TaskUpdate.t) :
  TaskService.get_task_by_id st task_id user_id = Some task ->
  TaskService.update_task e st task_id user_id patch
    = (st, PErr (AttributeError "TaskUpdate" "category")) /\
  TaskService.complete_task e st task_id user_id = (st, Err (NameError "HistoryService")).
Proof.
  intros Hget. rewrite update_task_raises, complete_task_raises, Hget. split; reflexivity.
Qed.

Lemma C6_update_and_complete_raise_differently_witness :
  Task.completed Fixtures.open_task = false /\
  TaskService.update_task Fixtures.env_ok Fixtures.st0 3 7 Fixtures.complete_patch
    = (Fixtures.st0, PErr (AttributeError "TaskUpdate" "category")) /\
  TaskService.complete_task Fixtures.env_ok Fixtures.st0 3 7
    = (Fixtures.st0, Err (NameError "HistoryService")).
Proof.
  split; [reflexivity|].
  exact (C6_update_and_complete_raise_differently Fixtures.env_ok Fixtures.st0 3 7
           Fixtures.open_task Fixtures.complete_patch eq_refl).
Defined.

(** ** C3: the recurring instance created on completion *)

Lemma try_recurring_instance_spec (e : env) (st : store) (x : Task.t)
    (d n : datetime) (p : RecurrencePattern) :
  Task.is_recurring x = true -> Task.due_date x = Some d ->
  Task.recurrence_pattern x = Some p ->
  RecurrenceCalculator.calculate_next_occurrence d (rp_value p) = Ok n ->
  TaskService.try_recurring_instance e st x
    = fst (insert_task st (Task.mk 0 (Task.user_id x) (Task.title x) (Task.description x)
                             false (utcnow e) (utcnow e) None 1 (Some n) (Some p) true
                             (Task.reminder_minutes x) None)) /\
  tasks (TaskService.try_recurring_instance e st x)
    = tasks st ++ [recurring_row e x n p (next_task_id st)].
Proof.
  intros Hr Hd Hp Hn.
  unfold TaskService.try_recurring_instance, TaskService.recurring_ready.
  rewrite Hr, Hd, Hp. simpl.
  unfold TaskService.create_recurring_instance. rewrite Hr, Hd, Hp. simpl.
  unfold Task.calculate_next_occurrence. rewrite Hr, Hd, Hp, Hn. split; reflexivity.
Qed.

Lemma try_recurring_instance_none (e : env) (st : store) (x : Task.t)
    (d : datetime) (p : RecurrencePattern) (err : exc) :
  Task.is_recurring x = true -> Task.due_date x = Some d ->
  Task.recurrence_pattern x = Some p ->
  RecurrenceCalculator.calculate_next_occurrence d (rp_value p) = Err err ->
  TaskService.try_recurring_instance e st x = st.
Proof.
  intros Hr Hd Hp Hn.
  unfold TaskService.try_recurring_instance, TaskService.recurring_ready.
  rewrite Hr, Hd, Hp. simpl.
  unfold TaskService.create_recurring_instance. rewrite Hr, Hd, Hp. simpl.
  unfold Task.calculate_next_occurrence. rewrite Hr, Hd, Hp, Hn. reflexivity.
Qed.

(** C3 (as stated): the new instance has [next_occurrence] recomputed one
    step further.  [create_recurring_instance] on the weekly task 1 (due
    2026-02-05), once completed, inserts task 4 due 2026-02-12 whose
    [next_occurrence] is [None], while the step after 2026-02-12 is
    2026-02-19. *)
Lemma C3_recurring_instance_next_occurrence_none :
  let t1 := TaskOps.mark_completed Fixtures.weekly_task Fixtures.now0 in
  let st1 := save_task Fixtures.st0 t1 in
  match TaskService.create_recurring_instance Fixtures.env_ok st1 t1 with
  | Ok (_, x) =>
      x = recurring_row Fixtures.env_ok Fixtures.weekly_task (mkDT 2026 2 12 10 0 0 0 utc)
            RP_WEEKLY 4 /\
      Task.next_occurrence x = None
  | Err _ => False
  end /\
  RecurrenceCalculator.calculate_next_occurrence (mkDT 2026 2 12 10 0 0 0 utc) WEEKLY
    = Ok (mkDT 2026 2 19 10 0 0 0 utc).
Proof. split; [vm_compute; split; reflexivity|vm_compute; reflexivity]. Qed.

(** C3 (amended): completion marks a task [T] completed in place (same id,
    [completed = True]).  For a recurring [T] with due date [D] and pattern
    [p], the recurrence step run on the completed [T] appends exactly one
    task when [NextOccurrence(D, p)] is defined and changes nothing when it
    raises (the error is caught and logged); existing rows are untouched.
    The new task has [T]'s owner, title, description, pattern and reminder,
    [due_date = NextOccurrence(D, p)], is not completed, is recurring, has
    no [client_id], and has [next_occurrence = None]: it is not recomputed
    one step further. *)
Theorem C3_recurrence_step_instance (e : env) (st : store) (task : Task.t) (now d : datetime)
    (p : RecurrencePattern) :
  Task.is_recurring task = true -> Task.due_date task = Some d ->
  Task.recurrence_pattern task = Some p ->
  let task1 := TaskOps.mark_completed task now in
  Task.id task1 = Task.id task /\ Task.completed task1 = true /\
  (forall n, RecurrenceCalculator.calculate_next_occurrence d (rp_value p) = Ok n ->
     let nt := recurring_row e task n p (next_task_id st) in
     tasks (TaskService.try_recurring_instance e st task1) = tasks st ++ [nt] /\
     Task.user_id nt = Task.user_id task /\
     Task.title nt = Task.title task /\ Task.description nt = Task.description task /\
     Task.recurrence_pattern nt = Task.recurrence_pattern task /\
     Task.reminder_minutes nt = Task.reminder_minutes task /\
     Task.due_date nt = Some n /\ Task.completed nt = false /\ Task.is_recurring nt = true /\
     Task.client_id nt = None /\ Task.next_occurrence nt = None) /\
  (forall err, RecurrenceCalculator.calculate_next_occurrence d (rp_value p) = Err err ->
     TaskService.try_recurring_instance e st task1 = st).
Proof.
  intros Hr Hd Hp task1.
  assert (Hr1 : Task.is_recurring task1 = true) by exact Hr.
  assert (Hd1 : Task.due_date task1 = Some d) by exact Hd.
  assert (Hp1 : Task.recurrence_pattern task1 = Some p) by exact Hp.
  split; [reflexivity|]. split; [reflexivity|]. split.
  - intros n Hn nt.
    split; [rewrite (proj2 (try_recurring_instance_spec e st task1 d n p Hr1 Hd1 Hp1 Hn));
            reflexivity|].
    repeat split; simpl; congruence.
  - intros err Hn. exact (try_recurring_instance_none e st task1 d p err Hr1 Hd1 Hp1 Hn).
Qed.

Lemma C3_recurrence_step_instance_witness :
  tasks (TaskService.try_recurring_instance Fixtures.env_ok Fixtures.st0
           (TaskOps.mark_completed Fixtures.weekly_task Fixtures.now0))
  = tasks Fixtures.st0 ++ [recurring_row Fixtures.env_ok Fixtures.weekly_task
                             (mkDT 2026 2 12 10 0 0 0 utc) RP_WEEKLY 4].
Proof.
  destruct (C3_recurrence_step_instance Fixtures.env_ok Fixtures.st0 Fixtures.weekly_task
              Fixtures.now0 Fixtures.due0 RP_WEEKLY eq_refl eq_refl eq_refl)
    as (_ & _ & H & _).
  exact (proj1 (H (mkDT 2026 2 12 10 0 0 0 utc) ltac:(vm_compute; reflexivity))).
Defined.

(** ** C7: no optimistic version check in update_task *)

(** C7 (code bug): [TaskUpdate] has no [version] field and [update_task]
    compares none, so no update can fail with a conflict.  As written, for
    every existing task and every patch, [update_task] raises
    [AttributeError] ([task_data.category]) and leaves the store unchanged;
    of two sequential updates neither succeeds, and the task's version
    never changes. *)
Theorem C7_update_task_attribute_error (e : env) (st : store) (task_id user_id : Z)
    (task : Task.t) (p1 p2 : TaskUpdate.t) :
  TaskService.get_task_by_id st task_id user_id = Some task ->
  TaskService.update_task e st task_id user_id p1
    = (st, PErr (AttributeError "TaskUpdate" "category")) /\
  TaskService.update_task e (fst (TaskService.update_task e st task_id user_id p1))
      task_id user_id p2
    = (st, PErr (AttributeError "TaskUpdate" "category")).
Proof.
  intros Hget. rewrite !update_task_raises, Hget. simpl fst. rewrite Hget. split; reflexivity.
Qed.

Lemma C7_update_task_attribute_error_witness :
  TaskService.update_task Fixtures.env_ok Fixtures.st0 3 7 (Fixtures.title_patch "first")
    = (Fixtures.st0, PErr (AttributeError "TaskUpdate" "category")).
Proof.
  exact (proj1 (C7_update_task_attribute_error Fixtures.env_ok Fixtures.st0 3 7
                  Fixtures.open_task (Fixtures.title_patch "first")
                  (Fixtures.title_patch "second") eq_refl)).
Defined.

(** ** C4 and C10: restoring a deleted task *)

Lemma find_save_history (l : list TaskHistory.t) (h : TaskHistory.t) (b : bool)
    (history_id user_id : Z) :
  let p := fun u => (TaskHistory.id u =? history_id) && (TaskHistory.user_id u =? user_id) in
  find p l = Some h ->
  find p (map (fun u => if TaskHistory.id u =? TaskHistory.id h
                        then TaskHistory.with_can_restore h b else u) l)
    = Some (TaskHistory.with_can_restore h b).
Proof.
  intros p Hf.
  assert (Hph : p h = true) by exact (proj2 (find_some _ _ Hf)).
  assert (Hp' : p (TaskHistory.with_can_restore h b) = true) by exact Hph.
  induction l as [|a l IH]; simpl in *; [discriminate|].
  destruct (p a) eqn:Ha.
  - injection Hf as ->. rewrite Z.eqb_refl. simpl. rewrite Hp'. reflexivity.
  - destruct (TaskHistory.id a =? TaskHistory.id h); simpl.
    + rewrite Hp'. reflexivity.
    + rewrite Ha. apply IH. exact Hf.
Qed.

Lemma restore_success (e : env) (st : store) (history_id user_id : Z) (h : TaskHistory.t) :
  HistoryService.get_history_by_id st history_id user_id = Some h ->
  TaskHistory.can_restore h = true ->
  exists x, HistoryService.restore_deleted_task e st history_id user_id
    = (save_history (fst (insert_task st x)) (TaskHistory.with_can_restore h false),
       Ok (Some (snd (insert_task st x)))) /\
    Task.reminder_minutes x = 15 /\ Task.next_occurrence x = None.
Proof.
  intros Hg Hc. unfold HistoryService.restore_deleted_task. rewrite Hg, Hc. simpl negb.
  cbv beta iota. eexists. split; [reflexivity|]. split; reflexivity.
Qed.

(** C4: [restore_deleted_task] returns [None] (the API's 404) when no entry
    matches the id and owner, raises [ValueError] (the API's 400) when the
    entry's [can_restore] is false, which holds for every [COMPLETED] entry;
    on success it appends one new task and stores the entry with
    [can_restore = False], so a second restore of the same entry raises
    [ValueError]. *)
Theorem C4_restore_exactly_once (e : env) (st : store) (history_id user_id : Z) :
  (HistoryService.get_history_by_id st history_id user_id = None ->
   HistoryService.restore_deleted_task e st history_id user_id = (st, Ok None)) /\
  (forall h, HistoryService.get_history_by_id st history_id user_id = Some h ->
   TaskHistory.can_restore h = false ->
   HistoryService.restore_deleted_task e st history_id user_id = (st, Err ValueError)) /\
  (forall now task by_ h, TaskHistory.from_task now task COMPLETED by_ = Ok h ->
   TaskHistory.can_restore h = false) /\
  (forall h, HistoryService.get_history_by_id st history_id user_id = Some h ->
   TaskHistory.can_restore h = true ->
   exists st' x,
     HistoryService.restore_deleted_task e st history_id user_id = (st', Ok (Some x)) /\
     tasks st' = tasks st ++ [x] /\
     HistoryService.get_history_by_id st' history_id user_id
       = Some (TaskHistory.with_can_restore h false) /\
     forall e', HistoryService.restore_deleted_task e' st' history_id user_id
                  = (st', Err ValueError)).
Proof.
  split; [intros Hg; unfold HistoryService.restore_deleted_task; rewrite Hg; reflexivity|].
  split; [intros h Hg Hc; unfold HistoryService.restore_deleted_task; rewrite Hg, Hc;
          reflexivity|].
  split; [intros now task by_ h Hf;
          destruct (from_task_spec _ _ _ _ _ Hf) as (_ & _ & _ & _ & _ & _ & _ & _ & G);
          exact G|].
  intros h Hg Hc.
  destruct (restore_success e st history_id user_id h Hg Hc) as (x & Hr & _).
  set (st' := save_history (fst (insert_task st x)) (TaskHistory.with_can_restore h false)).
  assert (Hg' : HistoryService.get_history_by_id st' history_id user_id
                = Some (TaskHistory.with_can_restore h false)).
  { unfold HistoryService.get_history_by_id, st', save_history. simpl.
    apply find_save_history. exact Hg. }
  exists st', (snd (insert_task st x)). split; [exact Hr|].
  split; [reflexivity|]. split; [exact Hg'|].
  intros e'. unfold HistoryService.restore_deleted_task. rewrite Hg'. reflexivity.
Qed.

Lemma C4_restore_exactly_once_witness :
  let st1 := fst (TaskService.delete_task Fixtures.env_ok Fixtures.st0 1 7) in
  let st2 := fst (HistoryService.restore_deleted_task Fixtures.env_ok st1 1 7) in
  HistoryService.restore_deleted_task Fixtures.env_ok st2 1 7 = (st2, Err ValueError).
Proof.
  intros st1 st2.
  destruct (C4_restore_exactly_once Fixtures.env_ok st1 1 7) as (_ & _ & _ & H).
  destruct (H _ (eq_refl : HistoryService.get_history_by_id st1 1 7 = Some _) eq_refl)
    as (st' & x & Hr & _ & _ & H2).
  subst st2. rewrite Hr. simpl fst. apply H2.
Defined.

(** C10: every successful restore yields a task with [reminder_minutes = 15]
    and [next_occurrence = None], whatever the deleted task had: the history
    entry records neither attribute. *)
Theorem C10_restored_task_defaults (e : env) (st st' : store) (history_id user_id : Z)
    (x : Task.t) :
  HistoryService.restore_deleted_task e st history_id user_id = (st', Ok (Some x)) ->
  Task.reminder_minutes x = 15 /\ Task.next_occurrence x = None.
Proof.
  unfold HistoryService.restore_deleted_task.
  destruct (HistoryService.get_history_by_id st history_id user_id) as [h|];
    [|intros E; discriminate].
  destruct (TaskHistory.can_restore h); simpl; [|intros E; discriminate].
  intros E. injection E as _ <-. split; reflexivity.
Qed.

Lemma C10_restored_task_defaults_witness :
  let st1 := fst (TaskService.delete_task Fixtures.env_ok Fixtures.st0 1 7) in
  Task.reminder_minutes Fixtures.weekly_task = 30 /\
  Task.next_occurrence Fixtures.weekly_task <> None /\
  exists x, HistoryService.restore_deleted_task Fixtures.env_ok st1 1 7
              = (fst (HistoryService.restore_deleted_task Fixtures.env_ok st1 1 7), Ok (Some x)) /\
            Task.reminder_minutes x = 15 /\ Task.next_occurrence x = None.
Proof.
  intros st1. split; [reflexivity|]. split; [discriminate|].
  eexists. split; [vm_compute; reflexivity|].
  apply (C10_restored_task_defaults Fixtures.env_ok st1
           (fst (HistoryService.restore_deleted_task Fixtures.env_ok st1 1 7)) 1 7).
  vm_compute. reflexivity.
Defined.

(** ** C9: purging expired history entries *)

Lemma filter_length_split {A} (f : A -> bool) (l : list A) :
  List.length l = (List.length (filter f l) + List.length (filter (fun a => negb (f a)) l))%nat.
Proof.
  induction l as [|a l IH]; simpl; [reflexivity|].
  destruct (f a); simpl; rewrite IH; lia.
Qed.

(** C9: [cleanup_old_history st cutoff] keeps exactly the entries whose
    [retention_until] is not strictly before [cutoff] (an entry retained
    exactly until [cutoff] survives), returns the number of entries it
    removed, and leaves the tasks alone. *)
Theorem C9_cleanup_strict_cutoff (st : store) (cutoff : datetime) :
  let '(st', count) := HistoryService.cleanup_old_history st cutoff in
  (forall h, In h (history st') <->
     In h (history st) /\
     ~ dt_instant (TaskHistory.retention_until h) < dt_instant cutoff) /\
  (forall h, In h (history st) ->
     dt_instant (TaskHistory.retention_until h) = dt_instant cutoff -> In h (history st')) /\
  count = Z.of_nat (List.length
            (filter (fun h => dt_instant (TaskHistory.retention_until h) <? dt_instant cutoff)
                    (history st))) /\
  Z.of_nat (List.length (history st)) = count + Z.of_nat (List.length (history st')) /\
  tasks st' = tasks st.
Proof.
  unfold HistoryService.cleanup_old_history. simpl.
  assert (Hmem : forall h, In h (filter (fun h => negb (dt_instant (TaskHistory.retention_until h)
                                                     <? dt_instant cutoff)) (history st)) <->
                   In h (history st) /\
                   ~ dt_instant (TaskHistory.retention_until h) < dt_instant cutoff).
  { intros h. rewrite filter_In, negb_true_iff, Z.ltb_ge.
    split; intros [A B]; split; auto; lia. }
  split; [exact Hmem|].
  split; [intros h Hin Heq; apply Hmem; split; [exact Hin|lia]|].
  split; [reflexivity|]. split; [|reflexivity].
  rewrite (filter_length_split
             (fun h => dt_instant (TaskHistory.retention_until h) <? dt_instant cutoff)
             (history st)) at 1.
  lia.
Qed.

Lemma C9_cleanup_strict_cutoff_witness :
  let st1 := fst (TaskService.delete_task Fixtures.env_ok Fixtures.st0 1 7) in
  let cutoff := mkDT 2028 2 1 9 0 0 0 None in
  snd (HistoryService.cleanup_old_history st1 cutoff) = 0.
Proof.
  intros st1 cutoff.
  pose proof (C9_cleanup_strict_cutoff st1 cutoff) as H.
  destruct (HistoryService.cleanup_old_history st1 cutoff) as [st' c].
  destruct H as (_ & _ & Hc & _). simpl. rewrite Hc. vm_compute. reflexivity.
Defined.

(** ** C8: cancelling the notifications of a task *)

(** C8: [cancel_notification] removes the jobs [notification_<id>_15] and
    [notification_<id>_due] only.  Task 1 scheduled with a 30 minute reminder
    one day ahead gets the jobs [notification_1_30] and [notification_1_due];
    cancelling its notifications leaves [notification_1_30] scheduled, and a
    second cancellation changes nothing more. *)
Theorem C8_cancel_leaves_custom_reminder_job :
  let day := 24 * 3600 * 1000000 in
  let jobs := Scheduler.schedule_notification 0 [] 1 day 30 in
  map Scheduler.job_id jobs = ["notification_1_30"; "notification_1_due"]%string /\
  map Scheduler.job_id (Scheduler.cancel_notification jobs 1) = ["notification_1_30"]%string /\
  Scheduler.cancel_notification (Scheduler.cancel_notification jobs 1) 1
    = Scheduler.cancel_notification jobs 1.
Proof. repeat split; vm_compute; reflexivity. Qed.

(** * Further properties of the code *)

(** ** RecurrenceCalculator: single steps *)

Lemma same_clock_refl (d : datetime) : same_clock d d.
Proof. repeat split. Qed.

Lemma same_clock_trans (a b c : datetime) : same_clock a b -> same_clock b c -> same_clock a c.
Proof. intros (? & ? & ? & ? & ?) (? & ? & ? & ? & ?); repeat split; congruence. Qed.

Lemma next_day_step (d r : datetime) :
  next_day d = Ok r -> dt_lt d r = true /\ same_clock d r.
Proof.
  unfold next_day. intros Hn.
  destruct (Z.ltb_spec (day d) (days_in_month (year d) (month d))).
  - injection Hn as <-. unfold same_clock, dt_lt, dt_fields; simpl.
    rewrite !Z.eqb_refl, (proj2 (Z.ltb_lt (day d) (day d + 1))) by lia.
    rewrite !orb_true_r. repeat split.
  - destruct (Z.ltb_spec (month d) 12).
    + injection Hn as <-. unfold same_clock, dt_lt, dt_fields; simpl.
      rewrite Z.eqb_refl, (proj2 (Z.ltb_lt (month d) (month d + 1))) by lia.
      rewrite orb_true_r. repeat split.
    + destruct (year d <? MAXYEAR); [|discriminate].
      injection Hn as <-. unfold same_clock, dt_lt, dt_fields; simpl.
      rewrite (proj2 (Z.ltb_lt (year d) (year d + 1))) by lia. repeat split.
Qed.

Lemma add_days_step (n : nat) : forall (d r : datetime),
  add_days d n = Ok r ->
  same_clock d r /\ ((n > 0)%nat -> dt_lt d r = true) /\
  (valid_dt d = true -> valid_dt r = true).
Proof.
  induction n as [|n IH]; intros d r H.
  - injection H as <-. split; [apply same_clock_refl|]. split; [intros; lia|auto].
  - simpl in H. destruct (next_day d) as [d1|x] eqn:E1; simpl in H; [|discriminate].
    destruct (next_day_step d d1 E1) as [L1 C1].
    destruct (IH d1 r H) as (C2 & L2 & V2).
    split; [eapply same_clock_trans; eauto|].
    split.
    + intros _. destruct n as [|n'].
      * simpl in H. injection H as <-. exact L1.
      * eapply dt_lt_trans; [exact L1|]. apply L2. lia.
    + intros Hv. apply V2. exact (proj1 (next_day_props d d1 Hv E1)).
Qed.

Lemma replace_step (d r : datetime) (y m dd : Z) :
  dt_replace_ymd d y m dd = Ok r ->
  r = mkDT y m dd (hour d) (minute d) (second d) (microsecond d) (tzinfo d) /\
  MINYEAR <= y <= MAXYEAR.
Proof.
  unfold dt_replace_ymd. destruct ((MINYEAR <=? y) && (y <=? MAXYEAR)) eqn:E; [|discriminate].
  intros H; injection H as <-. apply andb_true_iff in E as [E1 E2].
  apply Z.leb_le in E1, E2. auto.
Qed.

Lemma valid_replace (d : datetime) (y m : Z) :
  valid_dt d = true -> MINYEAR <= y <= MAXYEAR -> 1 <= m <= 12 ->
  valid_dt (mkDT y m (Z.min (days_in_month y m) (day d)) (hour d) (minute d)
              (second d) (microsecond d) (tzinfo d)) = true.
Proof.
  intros Hv Hy Hm. pose proof (days_in_month_bounds y m). valid_unfold Hv. valid_fold.
  simpl. lia.
Qed.

(** X1: [calculate_next_occurrence] raises [ValueError] for every pattern
    outside the five known ones (the empty string included) and, whatever
    the pattern, for every naive datetime. *)
Theorem X1_next_occurrence_rejects (d : datetime) (p : string) :
  (is_valid p = false -> RecurrenceCalculator.calculate_next_occurrence d p = Err ValueError) /\
  (tzinfo d = None -> RecurrenceCalculator.calculate_next_occurrence d p = Err ValueError).
Proof.
  unfold RecurrenceCalculator.calculate_next_occurrence. split.
  - intros Hp. rewrite Hp. destruct (String.eqb p ""); reflexivity.
  - intros Ht. rewrite Ht. destruct (String.eqb p ""), (negb (is_valid p)); reflexivity.
Qed.

Lemma X1_next_occurrence_rejects_witness :
  RecurrenceCalculator.calculate_next_occurrence (mkDT 2026 2 5 10 0 0 0 utc) "fortnightly"
    = Err ValueError /\
  RecurrenceCalculator.calculate_next_occurrence (mkDT 2026 2 5 10 0 0 0 None) DAILY
    = Err ValueError.
Proof.
  split.
  - apply (proj1 (X1_next_occurrence_rejects (mkDT 2026 2 5 10 0 0 0 utc) "fortnightly")).
    reflexivity.
  - apply (proj2 (X1_next_occurrence_rejects (mkDT 2026 2 5 10 0 0 0 None) DAILY)).
    reflexivity.
Defined.

(** X2: whenever [calculate_next_occurrence d p] returns a datetime [r]
    (any date, not only before year 9999), [r] is strictly later than [d],
    keeps [d]'s time of day and [tzinfo], and is a valid datetime when [d]
    is. *)
Theorem X2_next_occurrence_step (d r : datetime) (p : string) :
  RecurrenceCalculator.calculate_next_occurrence d p = Ok r ->
  dt_lt d r = true /\ same_clock d r /\ (valid_dt d = true -> valid_dt r = true).
Proof.
  unfold RecurrenceCalculator.calculate_next_occurrence.
  destruct (String.eqb p ""); [discriminate|].
  destruct (negb (is_valid p)); [discriminate|].
  destruct (tzinfo d); [|discriminate].
  destruct (String.eqb p DAILY);
    [intros H; destruct (add_days_step 1 d r H) as (C & L & V); auto|].
  destruct (String.eqb p WEEKLY);
    [intros H; destruct (add_days_step 7 d r H) as (C & L & V); auto 6 with arith|].
  destruct (String.eqb p BI_WEEKLY);
    [intros H; destruct (add_days_step 14 d r H) as (C & L & V); auto 6 with arith|].
  destruct (String.eqb p MONTHLY).
  - unfold add_relativedelta_months1. intros H.
    destruct (replace_step _ _ _ _ _ H) as [-> Hy].
    split; [|split; [repeat split|]].
    + unfold dt_lt, dt_fields; simpl.
      destruct (Z.eqb_spec (month d) 12); simpl.
      * rewrite (proj2 (Z.ltb_lt (year d) (year d + 1))) by lia. reflexivity.
      * rewrite Z.eqb_refl, (proj2 (Z.ltb_lt (month d) (month d + 1))) by lia.
        rewrite orb_true_r. reflexivity.
    + intros Hv. apply valid_replace; auto.
      pose proof Hv as Hv'. valid_unfold Hv'.
      destruct (Z.eqb_spec (month d) 12); lia.
  - destruct (String.eqb p YEARLY); [|discriminate].
    unfold add_relativedelta_years. intros H.
    destruct (replace_step _ _ _ _ _ H) as [-> Hy].
    split; [|split; [repeat split|]].
    + unfold dt_lt, dt_fields; simpl.
      rewrite (proj2 (Z.ltb_lt (year d) (year d + 1))) by lia. reflexivity.
    + intros Hv. apply valid_replace; auto. valid_unfold Hv. lia.
Qed.

Lemma X2_next_occurrence_step_witness :
  dt_lt (mkDT 9999 11 30 8 0 0 0 utc) (mkDT 9999 12 30 8 0 0 0 utc) = true.
Proof.
  exact (proj1 (X2_next_occurrence_step (mkDT 9999 11 30 8 0 0 0 utc)
                  (mkDT 9999 12 30 8 0 0 0 utc) MONTHLY eq_refl)).
Defined.

(** ** RecurrenceCalculator: sequences of occurrences *)

Lemma bind_ok_r {A} (r : result A) : bind r (fun a => Ok a) = r.
Proof. destruct r; reflexivity. Qed.

Lemma multiple_loop_props (p : string) (n : nat) : forall (s : datetime) (l : list datetime),
  RecurrenceCalculator.multiple_loop n s p = Ok l ->
  List.length l = n /\ StronglySorted (fun a b => dt_lt a b = true) (s :: l) /\
  Forall (same_clock s) l.
Proof.
  induction n as [|n IH]; intros s l H.
  - injection H as <-. split; [reflexivity|]. split; [repeat constructor|constructor].
  - simpl in H.
    destruct (RecurrenceCalculator.calculate_next_occurrence s p) as [x|e] eqn:Ex;
      simpl in H; [|discriminate].
    destruct (RecurrenceCalculator.multiple_loop n x p) as [rest|e] eqn:Er;
      simpl in H; [|discriminate].
    injection H as <-.
    destruct (IH x rest Er) as (Hl & Hs & Hc).
    destruct (X2_next_occurrence_step s x p Ex) as (Lx & Cx & _).
    split; [simpl; congruence|]. split.
    + constructor; [exact Hs|]. constructor; [exact Lx|].
      apply StronglySorted_inv in Hs as [_ Hf].
      eapply Forall_impl; [|exact Hf]. intros a Ha. eapply dt_lt_trans; eauto.
    + constructor; [exact Cx|]. eapply Forall_impl; [|exact Hc].
      intros a Ha. eapply same_clock_trans; eauto.
Qed.

Lemma last_cons_default {A} (x d : A) (l : list A) : last (x :: l) d = last l x.
Proof.
  revert x d; induction l as [|y l IH]; intros x d; [reflexivity|].
  change (last (y :: l) d = last (y :: l) x). rewrite !IH. reflexivity.
Qed.

Lemma multiple_loop_app (p : string) (a b : nat) : forall (s : datetime),
  RecurrenceCalculator.multiple_loop (a + b) s p =
  bind (RecurrenceCalculator.multiple_loop a s p) (fun l1 =>
    bind (RecurrenceCalculator.multiple_loop b (last l1 s) p) (fun l2 => Ok (l1 ++ l2))).
Proof.
  induction a as [|a IH]; intros s.
  - simpl. rewrite bind_ok_r. reflexivity.
  - cbn [RecurrenceCalculator.multiple_loop Nat.add].
    destruct (RecurrenceCalculator.calculate_next_occurrence s p) as [x|e]; cbn [bind];
      [|reflexivity].
    rewrite IH.
    destruct (RecurrenceCalculator.multiple_loop a x p) as [l1|e]; cbn [bind]; [|reflexivity].
    rewrite last_cons_default.
    destruct (RecurrenceCalculator.multiple_loop b (last l1 x) p); reflexivity.
Qed.

Lemma multiple_eq_loop (s : datetime) (p : string) (c : Z) : 0 <= c ->
  RecurrenceCalculator.calculate_multiple_occurrences s p c
  = RecurrenceCalculator.multiple_loop (Z.to_nat c) s p.
Proof.
  intros Hc. unfold RecurrenceCalculator.calculate_multiple_occurrences.
  rewrite (proj2 (Z.ltb_ge c 0)) by lia.
  destruct (Z.eqb_spec c 0) as [->|]; reflexivity.
Qed.

(** X3: [calculate_multiple_occurrences start p count] raises [ValueError]
    for a negative [count]; a returned list has exactly [count] elements,
    each strictly later than the one before (the first strictly later than
    [start]) and all with [start]'s time of day and [tzinfo]; and asking for
    [m + n] occurrences is asking for [m], then [n] more from the last of
    those. *)
Theorem X3_multiple_occurrences (start : datetime) (p : string) (count : Z) :
  (count < 0 ->
   RecurrenceCalculator.calculate_multiple_occurrences start p count = Err ValueError) /\
  (forall l, RecurrenceCalculator.calculate_multiple_occurrences start p count = Ok l ->
   List.length l = Z.to_nat count /\
   StronglySorted (fun a b => dt_lt a b = true) (start :: l) /\
   Forall (same_clock start) l) /\
  (forall m, 0 <= m -> 0 <= count ->
   RecurrenceCalculator.calculate_multiple_occurrences start p (m + count) =
   bind (RecurrenceCalculator.calculate_multiple_occurrences start p m) (fun l1 =>
     bind (RecurrenceCalculator.calculate_multiple_occurrences (last l1 start) p count)
       (fun l2 => Ok (l1 ++ l2)))).
Proof.
  split; [intros Hc; unfold RecurrenceCalculator.calculate_multiple_occurrences;
          rewrite (proj2 (Z.ltb_lt count 0)) by exact Hc; reflexivity|].
  split.
  - intros l H. destruct (Z.ltb_spec count 0) as [Hn|Hn].
    + unfold RecurrenceCalculator.calculate_multiple_occurrences in H.
      rewrite (proj2 (Z.ltb_lt count 0)) in H by exact Hn. discriminate.
    + rewrite multiple_eq_loop in H by exact Hn. exact (multiple_loop_props p _ start l H).
  - intros m Hm Hc. rewrite !multiple_eq_loop by lia.
    rewrite Z2Nat.inj_add by lia. rewrite multiple_loop_app.
    destruct (RecurrenceCalculator.multiple_loop (Z.to_nat m) start p); simpl; [|reflexivity].
    rewrite multiple_eq_loop by exact Hc. reflexivity.
Qed.

Lemma X3_multiple_occurrences_witness :
  RecurrenceCalculator.calculate_multiple_occurrences (mkDT 2026 2 1 10 0 0 0 utc) WEEKLY (-1)
    = Err ValueError.
Proof.
  apply (proj1 (X3_multiple_occurrences (mkDT 2026 2 1 10 0 0 0 utc) WEEKLY (-1))). lia.
Defined.

Lemma until_loop_props (p : string) (end_date : datetime) (fuel : nat) :
  forall (cur : datetime) (l : list datetime),
  RecurrenceCalculator.until_loop fuel cur end_date p = POk l ->
  (List.length l <= fuel)%nat /\
  RecurrenceCalculator.multiple_loop (List.length l) cur p = Ok l /\
  Forall (fun x => dt_cmp x end_date <> Some Gt) l /\
  ((List.length l < fuel)%nat ->
   exists n, RecurrenceCalculator.calculate_next_occurrence (last l cur) p = Ok n /\
             dt_cmp n end_date = Some Gt).
Proof.
  induction fuel as [|f IH]; intros cur l H.
  - injection H as <-. simpl. split; [lia|]. split; [reflexivity|].
    split; [constructor|intros; lia].
  - simpl in H.
    destruct (RecurrenceCalculator.calculate_next_occurrence cur p) as [x|e] eqn:Ex;
      [|discriminate].
    destruct (dt_cmp x end_date) as [c|] eqn:Ec; [|discriminate].
    destruct c.
    1, 2: destruct (RecurrenceCalculator.until_loop f x end_date p) as [rest|e] eqn:Er;
      [|discriminate]; injection H as <-;
      destruct (IH x rest Er) as (Hl & Hm & Hf & Hn);
      split; [simpl; lia|];
      split; [simpl; rewrite Ex; simpl; rewrite Hm; reflexivity|];
      split; [constructor; [rewrite Ec; discriminate|exact Hf]|];
      intros Hlt; rewrite last_cons_default; apply Hn; simpl in Hlt; lia.
    + injection H as <-. split; [simpl; lia|]. split; [reflexivity|].
      split; [constructor|]. intros _. exists x. split; assumption.
Qed.

(** X4: when [calculate_occurrences_until start p end_date max_count]
    returns a list [l]: [l] is empty unless [end_date] is later than
    [start]; [l] has at most [max_count] elements; [l] is exactly what
    [calculate_multiple_occurrences] returns for [len(l)] occurrences; no
    element is later than [end_date]; and if [l] is shorter than
    [max_count], the occurrence after its last one is later than
    [end_date]. *)
Theorem X4_occurrences_until (start end_date : datetime) (p : string) (max_count : Z)
    (l : list datetime) :
  RecurrenceCalculator.calculate_occurrences_until start p end_date max_count = POk l ->
  (dt_cmp end_date start <> Some Gt -> l = []) /\
  (List.length l <= Z.to_nat max_count)%nat /\
  RecurrenceCalculator.calculate_multiple_occurrences start p (Z.of_nat (List.length l)) = Ok l /\
  Forall (fun x => dt_cmp x end_date <> Some Gt) l /\
  (dt_cmp end_date start = Some Gt -> (List.length l < Z.to_nat max_count)%nat ->
   exists n, RecurrenceCalculator.calculate_next_occurrence (last l start) p = Ok n /\
             dt_cmp n end_date = Some Gt).
Proof.
  unfold RecurrenceCalculator.calculate_occurrences_until. intros H.
  destruct (dt_cmp end_date start) as [c|] eqn:Ec; [|discriminate].
  destruct c.
  1, 2: injection H as <-; split; [reflexivity|]; split; [simpl; lia|];
    split; [reflexivity|]; split; [constructor|discriminate].
  destruct (until_loop_props p end_date _ start l H) as (Hl & Hm & Hf & Hn).
  split; [congruence|]. split; [exact Hl|].
  split; [rewrite multiple_eq_loop by lia; rewrite Nat2Z.id; exact Hm|].
  split; [exact Hf|]. intros _. exact Hn.
Qed.

Lemma X4_occurrences_until_witness :
  exists l,
    RecurrenceCalculator.calculate_occurrences_until (mkDT 2026 2 1 10 0 0 0 utc) WEEKLY
      (mkDT 2026 3 1 10 0 0 0 utc) 100 = POk l /\
    List.length l = 4%nat /\
    RecurrenceCalculator.calculate_multiple_occurrences (mkDT 2026 2 1 10 0 0 0 utc) WEEKLY 4
      = Ok l.
Proof.
  destruct (RecurrenceCalculator.calculate_occurrences_until (mkDT 2026 2 1 10 0 0 0 utc)
              WEEKLY (mkDT 2026 3 1 10 0 0 0 utc) 100) as [l|e] eqn:E;
    [|vm_compute in E; discriminate].
  exists l. split; [reflexivity|].
  destruct (X4_occurrences_until (mkDT 2026 2 1 10 0 0 0 utc) (mkDT 2026 3 1 10 0 0 0 utc)
              WEEKLY 100 l E) as (_ & _ & Hm & _).
  assert (Hlen : List.length l = 4%nat) by (vm_compute in E; injection E as <-; reflexivity).
  split; [exact Hlen|]. rewrite Hlen in Hm. exact Hm.
Defined.

(** ** TaskHistory: retention *)

Lemma days_in_month_not_feb (y y' m : Z) : m <> 2 -> days_in_month y m = days_in_month y' m.
Proof. intros Hm. unfold days_in_month. rewrite (proj2 (Z.eqb_neq m 2) Hm). reflexivity. Qed.

Lemma toordinal_two_years (d : datetime) :
  valid_dt d = true ->
  let y := year d + 2 in
  toordinal (mkDT y (month d) (Z.min (days_in_month y (month d)) (day d)) (hour d)
               (minute d) (second d) (microsecond d) (tzinfo d))
  >= toordinal d + 730.
Proof.
  intros Hv y. subst y. valid_unfold Hv.
  unfold toordinal; simpl.
  replace (year d + 2) with (year d + 1 + 1) by lia.
  rewrite !days_before_year_succ.
  unfold days_before_month.
  destruct (Z.eq_dec (month d) 2) as [E|E].
  - rewrite E in *. simpl.
    unfold days_in_month in *. simpl in *.
    destruct (is_leap (year d)), (is_leap (year d + 1)), (is_leap (year d + 1 + 1)); lia.
  - rewrite (days_in_month_not_feb (year d + 1 + 1) (year d) (month d) E).
    rewrite Z.min_r by lia.
    destruct (month d >? 2), (is_leap (year d)), (is_leap (year d + 1)),
      (is_leap (year d + 1 + 1)); simpl; lia.
Qed.

(** The instant of a datetime moved by whole days, time of day kept. *)
Lemma dt_instant_days (a b : datetime) :
  same_clock a b ->
  dt_instant b - dt_instant a = (toordinal b - toordinal a) * 86400000000.
Proof.
  intros (H1 & H2 & H3 & H4 & H5). unfold dt_instant.
  rewrite H1, H2, H3, H4, H5. destruct (tzinfo b); lia.
Qed.

(** X5: [TaskHistory.from_task] at action time [now] succeeds exactly when
    the year two years later is in Python's range (it raises [ValueError]
    from year 9998 on).  The entry it builds has [action_date = now],
    [retention_until] two calendar years later at the same time of day
    (a 29 February becomes 28 February), and [can_restore] true exactly for
    [DELETED]. *)
Theorem X5_from_task_retention (now : datetime) (task : Task.t) (a : HistoryActionType)
    (by_ : Z) :
  (MINYEAR <= year now + 2 <= MAXYEAR ->
   exists h, TaskHistory.from_task now task a by_ = Ok h /\
     TaskHistory.action_date h = now /\
     TaskHistory.retention_until h =
       mkDT (year now + 2) (month now)
         (Z.min (days_in_month (year now + 2) (month now)) (day now))
         (hour now) (minute now) (second now) (microsecond now) (tzinfo now) /\
     TaskHistory.can_restore h = action_eqb a DELETED) /\
  (~ (MINYEAR <= year now + 2 <= MAXYEAR) ->
   TaskHistory.from_task now task a by_ = Err ValueError).
Proof.
  unfold TaskHistory.from_task, TaskHistory.init. simpl.
  unfold add_relativedelta_years, dt_replace_ymd.
  split.
  - intros Hy.
    replace ((MINYEAR <=? year now + 2) && (year now + 2 <=? MAXYEAR)) with true
      by (symmetry; apply andb_true_iff; rewrite !Z.leb_le; lia).
    simpl. unfold TaskHistory.validate_action_type; simpl.
    destruct a; simpl; eexists; (split; [reflexivity|]); simpl; repeat split.
  - intros Hy.
    replace ((MINYEAR <=? year now + 2) && (year now + 2 <=? MAXYEAR)) with false
      by (symmetry; apply andb_false_iff; rewrite !Z.leb_gt; lia).
    reflexivity.
Qed.

Lemma X5_from_task_retention_witness :
  exists h,
    TaskHistory.from_task (mkDT 2024 2 29 12 0 0 0 None) Fixtures.open_task DELETED 7 = Ok h /\
    TaskHistory.retention_until h = mkDT 2026 2 28 12 0 0 0 None.
Proof.
  destruct (proj1 (X5_from_task_retention (mkDT 2024 2 29 12 0 0 0 None) Fixtures.open_task
                     DELETED 7) ltac:(unfold MINYEAR, MAXYEAR; simpl; lia))
    as (h & Hf & _ & Hr & _).
  exists h. split; [exact Hf|]. rewrite Hr. reflexivity.
Defined.

(** X6: a history entry written by [create_history_entry] at a valid time
    [now] is kept by every purge whose cutoff lies at most 730 days after
    [now]: by [HistoryService.cleanup_old_history] and by the daily
    [cleanup_old_history_job] run at such a time. *)
Theorem X6_history_kept_730_days (e : env) (st st1 : store) (task : Task.t)
    (a : HistoryActionType) (by_ : Z) (h : TaskHistory.t) (cutoff : datetime) :
  valid_dt (utcnow e) = true ->
  HistoryService.create_history_entry e st task a by_ = Ok (st1, h) ->
  dt_instant cutoff <= dt_instant (utcnow e) + 730 * 86400000000 ->
  In h (history (fst (HistoryService.cleanup_old_history st1 cutoff))) /\
  In h (history (Scheduler.cleanup_old_history_job cutoff st1)).
Proof.
  intros Hv Hc Hcut.
  unfold HistoryService.create_history_entry in Hc.
  destruct (TaskHistory.from_task (utcnow e) task a by_) as [h0|x] eqn:Hf;
    simpl in Hc; [|discriminate].
  destruct (history_db_ok e); [|discriminate]. injection Hc as Hc Hh.
  assert (Hin : In h (history st1)).
  { rewrite <- Hc, <- Hh. simpl. apply in_or_app. right. left. reflexivity. }
  assert (Hret : TaskHistory.retention_until h = TaskHistory.retention_until h0)
    by (rewrite <- Hh; reflexivity).
  assert (Hy : MINYEAR <= year (utcnow e) + 2 <= MAXYEAR).
  { destruct (Z_le_dec MINYEAR (year (utcnow e) + 2)), (Z_le_dec (year (utcnow e) + 2) MAXYEAR);
      [lia| | |];
    rewrite (proj2 (X5_from_task_retention (utcnow e) task a by_)) in Hf by lia;
    discriminate. }
  destruct (proj1 (X5_from_task_retention (utcnow e) task a by_) Hy)
    as (h1 & Hf1 & _ & Hr1 & _).
  rewrite Hf in Hf1. injection Hf1 as <-.
  pose proof (toordinal_two_years (utcnow e) Hv) as Ho. cbv zeta in Ho.
  rewrite <- Hr1 in Ho.
  assert (Hsc : same_clock (utcnow e) (TaskHistory.retention_until h0))
    by (rewrite Hr1; repeat split).
  pose proof (dt_instant_days _ _ Hsc) as Hi.
  assert (Hkeep : In h (history (fst (HistoryService.cleanup_old_history st1 cutoff)))).
  { unfold HistoryService.cleanup_old_history; simpl.
    apply filter_In. split; [exact Hin|].
    rewrite Hret. apply negb_true_iff, Z.ltb_ge. nia. }
  split; exact Hkeep.
Qed.

Lemma X6_history_kept_730_days_witness :
  In (snd (insert_history Fixtures.st0
             (TaskHistory.mk 0 7 3 "Call bank" "" false None None DELETED Fixtures.now0 7 true
                (mkDT 2028 2 1 9 0 0 0 None))))
     (history (fst (HistoryService.cleanup_old_history
                      (fst (insert_history Fixtures.st0
                              (TaskHistory.mk 0 7 3 "Call bank" "" false None None DELETED
                                 Fixtures.now0 7 true (mkDT 2028 2 1 9 0 0 0 None))))
                      (mkDT 2028 1 31 9 0 0 0 None)))).
Proof.
  refine (proj1 (X6_history_kept_730_days Fixtures.env_ok Fixtures.st0 _ Fixtures.open_task
                   DELETED 7 _ (mkDT 2028 1 31 9 0 0 0 None) eq_refl _ _)).
  - vm_compute. reflexivity.
  - vm_compute. discriminate.
Defined.

(** ** Deleting and restoring a task *)

Lemma rp_of_value_rp_value (p : RecurrencePattern) : rp_of_value (rp_value p) = Some p.
Proof. destruct p; reflexivity. Qed.

Lemma truthy_rp_value (o : option RecurrencePattern) :
  HistoryService.truthy_str (option_map rp_value o) = is_some o.
Proof. destruct o as [[]|]; reflexivity. Qed.

Lemma find_none_intro {A} (p : A -> bool) (l : list A) :
  (forall a, In a l -> p a = false) -> find p l = None.
Proof.
  induction l as [|a l IH]; simpl; intros H; [reflexivity|].
  rewrite (H a (or_introl eq_refl)). apply IH. intros b Hb. apply H. right. exact Hb.
Qed.

Lemma find_app_none {A} (p : A -> bool) (l1 l2 : list A) :
  Forall (fun a => p a = false) l1 -> find p (l1 ++ l2) = find p l2.
Proof. induction 1 as [|a l Ha _ IH]; simpl; [reflexivity|]. rewrite Ha. exact IH. Qed.

(** X7: deleting a task whose history row is written, then restoring the
    history entry the delete created (id [next_history_id st], fresh when
    every existing entry has a smaller id), gives back a new task of the same
    owner with the deleted task's title, description, completion state, due
    date and recurrence pattern, and [is_recurring] set exactly when a
    pattern was recorded; that entry can then not be restored again. *)
Theorem X7_delete_then_restore (e1 e2 : env) (st : store) (task_id user_id : Z)
    (task : Task.t) :
  TaskService.get_task_by_id st task_id user_id = Some task ->
  history_db_ok e1 = true ->
  MINYEAR <= year (utcnow e1) + 2 <= MAXYEAR ->
  Forall (fun h => TaskHistory.id h < next_history_id st) (history st) ->
  let st1 := fst (TaskService.delete_task e1 st task_id user_id) in
  TaskService.get_task_by_id st1 task_id user_id = None /\
  exists st2 x,
    HistoryService.restore_deleted_task e2 st1 (next_history_id st) user_id
      = (st2, Ok (Some x)) /\
    In x (tasks st2) /\
    Task.user_id x = user_id /\ Task.title x = Task.title task /\
    Task.description x = Task.description task /\
    Task.completed x = Task.completed task /\
    Task.due_date x = Task.due_date task /\
    Task.recurrence_pattern x = Task.recurrence_pattern task /\
    Task.is_recurring x = is_some (Task.recurrence_pattern task) /\
    forall e3, HistoryService.restore_deleted_task e3 st2 (next_history_id st) user_id
                 = (st2, Err ValueError).
Proof.
  intros Hget Hdb Hy Hfresh st1.
  pose proof (find_some _ _ Hget) as [_ Hp].
  apply andb_true_iff in Hp as [Hid Hu]. apply Z.eqb_eq in Hid, Hu.
  destruct (create_history_entry_ok e1 st task DELETED user_id Hdb Hy) as (h & Hf & Hc).
  destruct (from_task_spec _ _ _ _ _ Hf)
    as (Hhu & _ & Hht & Hhd & Hhc & Hhdue & Hhrp & _ & Hhcr).
  assert (Est1 : st1 = delete_row (fst (insert_history st h)) (Task.id task)).
  { unfold st1, TaskService.delete_task. rewrite Hget, Hc. reflexivity. }
  split.
  - rewrite Est1. unfold TaskService.get_task_by_id, delete_row. simpl.
    apply find_none_intro. intros u Hin.
    apply filter_In in Hin as [_ Hn]. apply negb_true_iff, Z.eqb_neq in Hn.
    apply andb_false_iff. left. apply Z.eqb_neq. congruence.
  - set (h' := snd (insert_history st h)).
    assert (Hg : HistoryService.get_history_by_id st1 (next_history_id st) user_id = Some h').
    { rewrite Est1. unfold HistoryService.get_history_by_id, delete_row. simpl.
      rewrite find_app_none.
      + simpl. rewrite Z.eqb_refl.
        replace (TaskHistory.user_id h =? user_id) with true
          by (rewrite Hhu, Hu; symmetry; apply Z.eqb_refl).
        reflexivity.
      + eapply Forall_impl; [|exact Hfresh]. intros a Ha. simpl in Ha.
        apply andb_false_iff. left. apply Z.eqb_neq. lia. }
    assert (Hc' : TaskHistory.can_restore h' = true) by (simpl; rewrite Hhcr; reflexivity).
    assert (Hg2 : forall s, history s = history st1 ->
              HistoryService.get_history_by_id
                (save_history s (TaskHistory.with_can_restore h' false))
                (next_history_id st) user_id
              = Some (TaskHistory.with_can_restore h' false)).
    { intros s Hs. unfold HistoryService.get_history_by_id, save_history. cbn [history].
      rewrite Hs. exact (find_save_history (history st1) h' false _ _ Hg). }
    unfold HistoryService.restore_deleted_task. rewrite Hg, Hc'. simpl negb. cbv iota zeta.
    eexists; eexists. split; [reflexivity|].
    split; [simpl; apply in_or_app; right; left; reflexivity|].
    simpl. rewrite Hhu, Hu, Hht, Hhd, Hhc, Hhdue, Hhrp, truthy_rp_value.
    split; [reflexivity|]. do 4 (split; [reflexivity|]).
    split; [destruct (Task.recurrence_pattern task); simpl;
            [apply rp_of_value_rp_value|reflexivity]|].
    split; [reflexivity|].
    intros e3. unfold HistoryService.restore_deleted_task.
    rewrite Hg2 by reflexivity. reflexivity.
Qed.

Lemma X7_delete_then_restore_witness :
  exists st2 x,
    HistoryService.restore_deleted_task Fixtures.env_ok
      (fst (TaskService.delete_task Fixtures.env_ok Fixtures.st0 1 7)) 1 7
      = (st2, Ok (Some x)) /\
    Task.recurrence_pattern x = Some RP_WEEKLY.
Proof.
  destruct (X7_delete_then_restore Fixtures.env_ok Fixtures.env_ok Fixtures.st0 1 7
              Fixtures.weekly_task eq_refl eq_refl
              ltac:(unfold MINYEAR, MAXYEAR; simpl; lia) (Forall_nil _))
    as (_ & st2 & x & Hr & _ & _ & _ & _ & _ & _ & Hp & _).
  exists st2, x. split; [exact Hr|]. rewrite Hp. reflexivity.
Defined.

(** ** HistoryService.get_history *)

Section SortDesc.
Context {A : Type} (key : A -> Z).

Definition desc (a b : A) : Prop := key b <= key a.

Lemma insert_desc_perm (x : A) (l : list A) : Permutation (insert_desc key x l) (x :: l).
Proof.
  induction l as [|y ys IH]; simpl; [reflexivity|].
  destruct (key y <=? key x); [reflexivity|].
  rewrite IH. apply perm_swap.
Qed.

Lemma sort_desc_perm (l : list A) : Permutation (sort_desc key l) l.
Proof.
  induction l as [|x xs IH]; simpl; [reflexivity|].
  rewrite insert_desc_perm. apply perm_skip. exact IH.
Qed.

Lemma insert_desc_sorted (x : A) (l : list A) :
  Sorted desc l -> Sorted desc (insert_desc key x l).
Proof.
  induction l as [|y ys IH]; simpl; intros Hs.
  - repeat constructor.
  - destruct (key y <=? key x) eqn:E.
    + constructor; [exact Hs|]. constructor. unfold desc. apply Z.leb_le. exact E.
    + apply Z.leb_gt in E. inversion Hs as [|? ? Hs' Hh]; subst.
      constructor; [apply IH; exact Hs'|].
      destruct ys as [|z zs]; simpl.
      * constructor. unfold desc. lia.
      * inversion Hh; subst. unfold desc in *.
        destruct (key z <=? key x); constructor; unfold desc; lia.
Qed.

Lemma sort_desc_sorted (l : list A) : Sorted desc (sort_desc key l).
Proof. induction l as [|x xs IH]; simpl; [constructor|]. apply insert_desc_sorted. exact IH. Qed.

Lemma order_by_desc_perm (o : tie_order A) (l : list A) : Permutation (order_by_desc key o l) l.
Proof. unfold order_by_desc. rewrite sort_desc_perm. apply arrange_perm. Qed.

Lemma order_by_desc_sorted (o : tie_order A) (l : list A) : Sorted desc (order_by_desc key o l).
Proof. apply sort_desc_sorted. Qed.

Lemma sorted_desc_map (l : list A) : Sorted desc l -> Sorted (fun a b => b <= a) (map key l).
Proof.
  induction 1 as [|x l Hs IH Hh]; simpl; constructor; [exact IH|].
  destruct Hh as [|y l' Hy]; simpl; constructor; exact Hy.
Qed.
End SortDesc.

(** Two lists of keys sorted largest first that are permutations of each
    other are equal. *)
Lemma sorted_ge_perm_eq (k1 k2 : list Z) :
  Sorted (fun a b => b <= a) k1 -> Sorted (fun a b => b <= a) k2 ->
  Permutation k1 k2 -> k1 = k2.
Proof.
  revert k2. induction k1 as [|x r IH]; intros k2 H1 H2 Hp.
  - symmetry. apply Permutation_nil. exact Hp.
  - destruct k2 as [|y r2].
    { apply Permutation_sym, Permutation_nil in Hp. discriminate. }
    apply Sorted_StronglySorted in H1; [|intros ? ? ? ? ?; lia].
    apply Sorted_StronglySorted in H2; [|intros ? ? ? ? ?; lia].
    inversion H1 as [|? ? S1 F1]; subst. inversion H2 as [|? ? S2 F2]; subst.
    assert (Hx : In x (y :: r2)) by (apply (Permutation_in _ Hp); left; reflexivity).
    assert (Hy : In y (x :: r)) by (apply (Permutation_in _ (Permutation_sym Hp)); left; reflexivity).
    assert (x = y) as <-.
    { destruct Hx as [->|Hx]; [reflexivity|]. destruct Hy as [<-|Hy]; [reflexivity|].
      rewrite Forall_forall in F1, F2. pose proof (F1 _ Hy). pose proof (F2 _ Hx). lia. }
    f_equal. apply IH.
    + apply StronglySorted_Sorted. exact S1.
    + apply StronglySorted_Sorted. exact S2.
    + apply Permutation_cons_inv in Hp. exact Hp.
Qed.

Lemma in_firstn_nth {A} (x : A) (a : nat) (l : list A) :
  In x (firstn a l) -> exists i, (i < a)%nat /\ nth_error l i = Some x.
Proof.
  revert l. induction a as [|a IH]; intros l H; [destruct H|].
  destruct l as [|y l]; [destruct H|]. destruct H as [<-|H].
  - exists 0%nat. split; [lia|reflexivity].
  - destruct (IH l H) as (i & Hi & Hn). exists (S i). split; [lia|exact Hn].
Qed.

Lemma nth_error_skipn_add {A} (l : list A) (b i : nat) :
  nth_error (skipn b l) i = nth_error l (b + i).
Proof.
  revert l. induction b as [|b IH]; intros l; [reflexivity|].
  destruct l as [|y l]; simpl; [destruct i; reflexivity|]. apply IH.
Qed.

Lemma sorted_ge_nth (k : list Z) (i j : nat) (a b : Z) :
  Sorted (fun a b => b <= a) k -> (i < j)%nat ->
  nth_error k i = Some a -> nth_error k j = Some b -> b <= a.
Proof.
  intros Hs. apply Sorted_StronglySorted in Hs; [|intros ? ? ? ? ?; lia].
  revert i j. induction Hs as [|x r S IH F]; intros i j Hij Ha Hb; [destruct i; discriminate|].
  destruct j as [|j]; [lia|]. simpl in Hb. destruct i as [|i].
  - simpl in Ha. injection Ha as <-. rewrite Forall_forall in F. apply F.
    eapply nth_error_In. exact Hb.
  - simpl in Ha. apply (IH i j); [lia|exact Ha|exact Hb].
Qed.

Lemma sorted_skipn {A} (R : A -> A -> Prop) (n : nat) (l : list A) :
  Sorted R l -> Sorted R (skipn n l).
Proof.
  revert l. induction n as [|n IH]; intros [|x l] H; simpl; try exact H; try constructor.
  apply IH. apply Sorted_inv in H as [H _]. exact H.
Qed.

Lemma sorted_firstn {A} (R : A -> A -> Prop) (n : nat) (l : list A) :
  Sorted R l -> Sorted R (firstn n l).
Proof.
  revert l. induction n as [|n IH]; intros [|x l] H; simpl; try constructor.
  - apply IH. apply Sorted_inv in H as [H _]. exact H.
  - apply Sorted_inv in H as [_ H2].
    destruct H2 as [|y l' Hy]; destruct n; simpl; constructor; exact Hy.
Qed.

(** Whatever the tie orders [o] and [o'] of two queries, an element of the
    slice [[b, b + a)] of the first ordering has a key at least that of
    every element of a slice of the second starting at or after [b + a]. *)
Lemma slices_ordered {A} (key : A -> Z) (o o' : tie_order A) (l : list A)
    (a b a' b' : nat) (x y : A) :
  (b + a <= b')%nat ->
  In x (firstn a (skipn b (order_by_desc key o l))) ->
  In y (firstn a' (skipn b' (order_by_desc key o' l))) ->
  key y <= key x.
Proof.
  intros Hb Hx Hy.
  assert (HK : map key (order_by_desc key o l) = map key (order_by_desc key o' l)).
  { apply sorted_ge_perm_eq.
    - apply sorted_desc_map, order_by_desc_sorted.
    - apply sorted_desc_map, order_by_desc_sorted.
    - apply Permutation_map.
      transitivity l; [apply order_by_desc_perm|symmetry; apply order_by_desc_perm]. }
  apply in_firstn_nth in Hx as (i & Hi & Hxi). rewrite nth_error_skipn_add in Hxi.
  apply in_firstn_nth in Hy as (j & Hj & Hyj). rewrite nth_error_skipn_add in Hyj.
  apply (sorted_ge_nth (map key (order_by_desc key o l)) (b + i) (b' + j)).
  - apply sorted_desc_map, order_by_desc_sorted.
  - lia.
  - rewrite nth_error_map, Hxi. reflexivity.
  - rewrite HK, nth_error_map, Hyj. reflexivity.
Qed.

Lemma in_order_by_desc_slice {A} (key : A -> Z) (o : tie_order A) (l : list A)
    (a b : nat) (x : A) :
  In x (firstn a (skipn b (order_by_desc key o l))) -> In x l.
Proof.
  intros H. apply in_firstn_nth in H as (i & _ & Hi). rewrite nth_error_skipn_add in Hi.
  apply (Permutation_in _ (order_by_desc_perm key o l)). eapply nth_error_In. exact Hi.
Qed.

Lemma history_matches_filters (u : Z) (q q' : TaskHistoryQuery.t) :
  TaskHistoryQuery.action_type q' = TaskHistoryQuery.action_type q ->
  TaskHistoryQuery.start_date q' = TaskHistoryQuery.start_date q ->
  TaskHistoryQuery.end_date q' = TaskHistoryQuery.end_date q ->
  TaskHistoryQuery.search q' = TaskHistoryQuery.search q ->
  HistoryService.history_matches u q' = HistoryService.history_matches u q.
Proof. intros H1 H2 H3 H4. unfold HistoryService.history_matches. rewrite H1, H2, H3, H4. reflexivity. Qed.

(** The result of [get_history] for a query with [page >= 1] and
    [page_size >= 0]. *)
Lemma get_history_ok (o : tie_order TaskHistory.t) (st : store) (u : Z) (q : TaskHistoryQuery.t) :
  1 <= TaskHistoryQuery.page q -> 0 <= TaskHistoryQuery.page_size q ->
  HistoryService.get_history o st u (Some q) =
  POk (firstn (Z.to_nat (TaskHistoryQuery.page_size q))
         (skipn (Z.to_nat ((TaskHistoryQuery.page q - 1) * TaskHistoryQuery.page_size q))
            (order_by_desc (fun h => dt_instant (TaskHistory.action_date h)) o
               (filter (HistoryService.history_matches u q) (history st)))),
       Z.of_nat (List.length (filter (HistoryService.history_matches u q) (history st)))).
Proof.
  intros Hp Hs. unfold HistoryService.get_history.
  replace ((TaskHistoryQuery.page q - 1) * TaskHistoryQuery.page_size q <? 0) with false
    by (symmetry; apply Z.ltb_ge; nia).
  replace (TaskHistoryQuery.page_size q <? 0) with false by (symmetry; apply Z.ltb_ge; lia).
  reflexivity.
Qed.

Lemma history_matches_user (u : Z) (q : TaskHistoryQuery.t) (h : TaskHistory.t) :
  HistoryService.history_matches u q h = true -> TaskHistory.user_id h = u.
Proof.
  unfold HistoryService.history_matches. intros Hm.
  apply andb_true_iff in Hm as [Hm _]. apply andb_true_iff in Hm as [Hm _].
  apply andb_true_iff in Hm as [Hm _]. apply andb_true_iff in Hm as [Hm _].
  apply Z.eqb_eq. exact Hm.
Qed.

(** A reversed table order, one more order the database may use for ties. *)
Definition reversed_order {A} : tie_order A :=
  mkTieOrder A (@rev A) (fun l => Permutation_sym (Permutation_rev l)).

(** X8: [get_history] pages through the matching entries (the user's, with
    the query's filters) newest [action_date] first, whatever order the
    database gives entries of equal [action_date] in each query.  With
    [page >= 1] and [page_size >= 1], the total is the number of matching
    entries, the same for every page; the page holds matching entries only,
    newest first; and for two queries with the same filters and page size,
    every entry on the earlier page is at least as recent as every entry on
    the later page. *)
Theorem X8_get_history_pages (o o' : tie_order TaskHistory.t) (st : store) (user_id : Z)
    (q q' : TaskHistoryQuery.t) (rows rows' : list TaskHistory.t) (total total' : Z) :
  TaskHistoryQuery.action_type q' = TaskHistoryQuery.action_type q ->
  TaskHistoryQuery.start_date q' = TaskHistoryQuery.start_date q ->
  TaskHistoryQuery.end_date q' = TaskHistoryQuery.end_date q ->
  TaskHistoryQuery.search q' = TaskHistoryQuery.search q ->
  TaskHistoryQuery.page_size q' = TaskHistoryQuery.page_size q ->
  1 <= TaskHistoryQuery.page q < TaskHistoryQuery.page q' ->
  1 <= TaskHistoryQuery.page_size q ->
  HistoryService.get_history o st user_id (Some q) = POk (rows, total) ->
  HistoryService.get_history o' st user_id (Some q') = POk (rows', total') ->
  total = Z.of_nat (List.length (filter (HistoryService.history_matches user_id q) (history st))) /\
  total' = total /\
  Forall (fun h => TaskHistory.user_id h = user_id /\
                   HistoryService.history_matches user_id q h = true) rows /\
  Sorted (fun a b => dt_instant (TaskHistory.action_date b)
                     <= dt_instant (TaskHistory.action_date a)) rows /\
  (forall h h', In h rows -> In h' rows' ->
     dt_instant (TaskHistory.action_date h') <= dt_instant (TaskHistory.action_date h)).
Proof.
  intros H1 H2 H3 H4 H5 Hp Hs Hg Hg'.
  rewrite get_history_ok in Hg by lia. rewrite get_history_ok in Hg' by lia.
  rewrite (history_matches_filters user_id q q' H1 H2 H3 H4), H5 in Hg'.
  injection Hg as Hr Ht. injection Hg' as Hr' Ht'.
  split; [congruence|]. split; [congruence|]. split; [|split].
  - apply Forall_forall. intros h Hin. rewrite <- Hr in Hin.
    apply in_order_by_desc_slice in Hin. apply filter_In in Hin as [_ Hm].
    split; [apply (history_matches_user _ q); exact Hm|exact Hm].
  - rewrite <- Hr. apply sorted_firstn, sorted_skipn.
    apply (order_by_desc_sorted (fun h => dt_instant (TaskHistory.action_date h))).
  - intros h h' Hin Hin'. rewrite <- Hr in Hin. rewrite <- Hr' in Hin'.
    refine (slices_ordered _ o o' _ _ _ _ _ h h' _ Hin Hin').
    rewrite <- Z2Nat.inj_add by nia. apply Z2Nat.inj_le; nia.
Qed.

Lemma X8_get_history_pages_witness :
  let h1 := TaskHistory.mk 1 7 1 "Water plants" "" false None None DELETED
              (mkDT 2026 1 3 9 0 0 0 None) 7 true (mkDT 2028 1 3 9 0 0 0 None) in
  let h2 := TaskHistory.mk 2 7 2 "Pay rent" "" true None None COMPLETED
              (mkDT 2026 1 3 9 0 0 0 None) 7 false (mkDT 2028 1 3 9 0 0 0 None) in
  let h3 := TaskHistory.mk 3 7 3 "Call bank" "" true None None COMPLETED
              (mkDT 2026 1 1 9 0 0 0 None) 7 false (mkDT 2028 1 1 9 0 0 0 None) in
  let st := mkStore [] [h1; h2; h3] 1 4 in
  HistoryService.get_history table_order st 7 (Some (TaskHistoryQuery.mk None None None None 1 1))
    = POk ([h1], 3) /\
  HistoryService.get_history reversed_order st 7
      (Some (TaskHistoryQuery.mk None None None None 2 1))
    = POk ([h1], 3) /\
  dt_instant (TaskHistory.action_date h1) <= dt_instant (TaskHistory.action_date h1).
Proof.
  intros h1 h2 h3 st.
  assert (Ha : HistoryService.get_history table_order st 7
                 (Some (TaskHistoryQuery.mk None None None None 1 1)) = POk ([h1], 3))
    by (vm_compute; reflexivity).
  assert (Hb : HistoryService.get_history reversed_order st 7
                 (Some (TaskHistoryQuery.mk None None None None 2 1)) = POk ([h1], 3))
    by (vm_compute; reflexivity).
  split; [exact Ha|]. split; [exact Hb|].
  destruct (X8_get_history_pages table_order reversed_order st 7
              (TaskHistoryQuery.mk None None None None 1 1)
              (TaskHistoryQuery.mk None None None None 2 1) [h1] [h1] 3 3
              eq_refl eq_refl eq_refl eq_refl eq_refl ltac:(simpl; lia) ltac:(simpl; lia) Ha Hb)
    as (_ & _ & _ & _ & H).
  apply H; left; reflexivity.
Defined.

(** X9: with [page >= 1] and [page_size >= 1], a [get_history] page holds
    [min(page_size, total - (page - 1) * page_size)] entries (none past the
    end); it is non-empty exactly when [page <= total_pages], the value the
    [GET /] history route reports, and every page before the last of them
    is full. *)
Theorem X9_history_total_pages (o : tie_order TaskHistory.t) (st : store) (user_id : Z)
    (q : TaskHistoryQuery.t)
    (rows : list TaskHistory.t) (total : Z) :
  1 <= TaskHistoryQuery.page q -> 1 <= TaskHistoryQuery.page_size q ->
  HistoryService.get_history o st user_id (Some q) = POk (rows, total) ->
  Z.of_nat (List.length rows) =
    Z.max 0 (Z.min (TaskHistoryQuery.page_size q)
                   (total - (TaskHistoryQuery.page q - 1) * TaskHistoryQuery.page_size q)) /\
  (rows <> [] <->
   TaskHistoryQuery.page q <= HistoryApi.total_pages total (TaskHistoryQuery.page_size q)) /\
  (TaskHistoryQuery.page q < HistoryApi.total_pages total (TaskHistoryQuery.page_size q) ->
   Z.of_nat (List.length rows) = TaskHistoryQuery.page_size q).
Proof.
  intros Hp Hs Hg. rewrite get_history_ok in Hg by lia.
  injection Hg as Hr Ht.
  set (k := TaskHistoryQuery.page q) in *. set (P := TaskHistoryQuery.page_size q) in *.
  set (l := filter (HistoryService.history_matches user_id q) (history st)) in *.
  assert (Hlen : Z.of_nat (List.length rows) = Z.max 0 (Z.min P (total - (k - 1) * P))).
  { rewrite <- Hr, <- Ht, length_firstn, length_skipn,
      (Permutation_length (order_by_desc_perm _ o l)).
    rewrite Nat2Z.inj_min, Nat2Z.inj_sub_max, !Z2Nat.id by nia. lia. }
  assert (HT : 0 <= total) by (rewrite <- Ht; lia).
  unfold HistoryApi.total_pages.
  pose proof (Z.mul_div_le (total + P - 1) P ltac:(lia)) as Hd.
  pose proof (Z.mod_pos_bound (total + P - 1) P ltac:(lia)) as Hm.
  pose proof (Z.div_mod (total + P - 1) P ltac:(lia)) as Hdm.
  split; [exact Hlen|]. split.
  - split.
    + intros Hne. destruct rows as [|r rs]; [congruence|]. simpl in Hlen.
      apply Z.div_le_lower_bound; [lia|]. nia.
    + intros Hk. destruct rows as [|r rs]; [|discriminate].
      simpl in Hlen. exfalso. nia.
  - intros Hk. nia.
Qed.

Lemma X9_history_total_pages_witness :
  let h1 := TaskHistory.mk 1 7 1 "Water plants" "" false None None DELETED
              (mkDT 2026 1 1 9 0 0 0 None) 7 true (mkDT 2028 1 1 9 0 0 0 None) in
  let st := mkStore [] [h1; h1; h1] 1 2 in
  HistoryService.get_history table_order st 7 (Some (TaskHistoryQuery.mk None None None None 2 2))
    = POk ([h1], 3) /\
  HistoryApi.total_pages 3 2 = 2.
Proof.
  intros h1 st. split; [vm_compute; reflexivity|].
  destruct (X9_history_total_pages table_order st 7 (TaskHistoryQuery.mk None None None None 2 2) [h1] 3
              ltac:(simpl; lia) ltac:(simpl; lia) ltac:(vm_compute; reflexivity))
    as (_ & Hne & _).
  simpl in Hne. assert (H : 2 <= HistoryApi.total_pages 3 2) by (apply Hne; discriminate).
  vm_compute in H. vm_compute. reflexivity.
Defined.

(** ** HistoryService.search_history: the search text as an ILIKE pattern *)

(** The characters [LIKE] treats specially. *)
Definition like_special (c : ascii) : bool :=
  Ascii.eqb c "%" || Ascii.eqb c "_" || Ascii.eqb c "\".

Lemma like_special_lower (c : ascii) : like_special (ascii_lower c) = like_special c.
Proof. destruct c as [[] [] [] [] [] [] [] []]; vm_compute; reflexivity. Qed.

Lemma list_ascii_of_string_append (s1 s2 : string) :
  list_ascii_of_string (s1 ++ s2) = list_ascii_of_string s1 ++ list_ascii_of_string s2.
Proof. induction s1 as [|c s1 IH]; simpl; [reflexivity|]. rewrite IH. reflexivity. Qed.

Lemma like_pct_any (t : list ascii) : like ["%"%char] t = true.
Proof. induction t as [|c t IH]; simpl in *; [reflexivity|exact IH]. Qed.

Lemma like_pct_skip (p t : list ascii) : like p t = true -> like ("%"%char :: p) t = true.
Proof. intros H. destruct t as [|c t]; simpl; rewrite H; reflexivity. Qed.

Lemma in_suffixes (s t : list ascii) : In s (suffixes t) <-> exists pre, t = pre ++ s.
Proof.
  revert s. induction t as [|c t IH]; intros s; simpl.
  - split.
    + intros [<-|[]]. exists []. reflexivity.
    + intros [pre E]. left. destruct pre; [exact E|discriminate].
  - split.
    + intros [<-|Hin]; [exists []; reflexivity|].
      destruct (proj1 (IH s) Hin) as [pre ->]. exists (c :: pre). reflexivity.
    + intros [[|d pre] E]; [left; exact E|].
      injection E as -> E. right. apply IH. exists pre. exact E.
Qed.

Lemma like_literal (p r t : list ascii) :
  forallb (fun c => negb (like_special c)) p = true ->
  like (p ++ r) t = true <-> exists t', t = p ++ t' /\ like r t' = true.
Proof.
  revert t. induction p as [|c p IH]; intros t Hp; simpl.
  - split; [intros H; exists t; split; [reflexivity|exact H]|intros [t' [-> H]]; exact H].
  - simpl in Hp. apply andb_true_iff in Hp as [Hc Hp].
    unfold like_special in Hc.
    destruct (Ascii.eqb c "%"), (Ascii.eqb c "_"), (Ascii.eqb c "\"); try discriminate Hc.
    destruct t as [|d t].
    + split; [discriminate|intros [t' [E _]]; discriminate].
    + rewrite andb_true_iff, (IH t Hp). split.
      * intros [E [t' [-> H]]]. apply Ascii.eqb_eq in E as ->. exists t'. split; auto.
      * intros [t' [E H]]. injection E as -> E. split; [apply Ascii.eqb_refl|].
        exists t'. split; assumption.
Qed.

Lemma like_contains (p t : list ascii) :
  forallb (fun c => negb (like_special c)) p = true ->
  like ("%"%char :: p ++ ["%"%char]) t = true <-> exists pre suf, t = pre ++ p ++ suf.
Proof.
  intros Hp. simpl. rewrite existsb_exists. split.
  - intros [x [Hin Hl]]. apply in_suffixes in Hin as [pre ->].
    apply (like_literal p ["%"%char] x Hp) in Hl as [t' [-> _]].
    exists pre, t'. reflexivity.
  - intros [pre [suf ->]]. exists (p ++ suf). split.
    + apply in_suffixes. exists pre. reflexivity.
    + apply (like_literal p ["%"%char] _ Hp). exists suf. split; [reflexivity|apply like_pct_any].
Qed.

Lemma search_pattern (s : string) :
  map ascii_lower (list_ascii_of_string ("%" ++ s ++ "%"))
  = "%"%char :: map ascii_lower (list_ascii_of_string s) ++ ["%"%char].
Proof.
  rewrite !list_ascii_of_string_append, !map_app. reflexivity.
Qed.

Lemma search_history_query (o : tie_order TaskHistory.t) (st : store) (user_id : Z) (s : string)
    (page page_size : Z) :
  1 <= page -> 1 <= page_size <= 100 ->
  HistoryService.search_history o st user_id s page page_size
  = HistoryService.get_history o st user_id
      (Some (TaskHistoryQuery.mk None None None (Some s) page page_size)).
Proof.
  intros Hp Hs. unfold HistoryService.search_history, TaskHistoryQuery.make.
  replace ((1 <=? page) && (1 <=? page_size) && (page_size <=? 100)) with true
    by (symmetry; rewrite !andb_true_iff, !Z.leb_le; lia).
  reflexivity.
Qed.

(** X10: [search_history] raises pydantic's [ValidationError] for
    [page < 1] or a [page_size] outside [1..100].  Otherwise it runs
    [get_history] with only the search filter, and for a search text
    without [%], [_] or backslash an entry matches exactly when it belongs to
    the user and the search text, lowercased, occurs in its lowercased
    title. *)
Theorem X10_search_history_substring (o : tie_order TaskHistory.t) (st : store) (user_id : Z)
    (s : string) (page page_size : Z) :
  ((page < 1 \/ page_size < 1 \/ 100 < page_size) ->
   HistoryService.search_history o st user_id s page page_size = PErr ValidationError) /\
  (1 <= page -> 1 <= page_size <= 100 ->
   forallb (fun c => negb (like_special c)) (list_ascii_of_string s) = true ->
   exists q,
     HistoryService.search_history o st user_id s page page_size
       = HistoryService.get_history o st user_id (Some q) /\
     forall h, HistoryService.history_matches user_id q h = true <->
       TaskHistory.user_id h = user_id /\
       exists pre suf, map ascii_lower (list_ascii_of_string (TaskHistory.title h))
                       = pre ++ map ascii_lower (list_ascii_of_string s) ++ suf).
Proof.
  split.
  - intros Hb. unfold HistoryService.search_history, TaskHistoryQuery.make.
    replace ((1 <=? page) && (1 <=? page_size) && (page_size <=? 100)) with false
      by (symmetry; rewrite !andb_false_iff, !Z.leb_gt; lia).
    reflexivity.
  - intros Hp Hs Hsp. eexists. split; [apply search_history_query; assumption|].
    intros h. unfold HistoryService.history_matches. simpl.
    rewrite !andb_true_r, andb_true_iff, Z.eqb_eq. apply and_iff_compat_l.
    assert (Hl : forallb (fun c => negb (like_special c))
                   (map ascii_lower (list_ascii_of_string s)) = true).
    { rewrite forallb_forall in *. intros c Hc. apply in_map_iff in Hc as [d [<- Hd]].
      rewrite like_special_lower. apply Hsp. exact Hd. }
    destruct (String.eqb s "") eqn:Es.
    + apply String.eqb_eq in Es as ->. simpl. split; [intros _|intros _; reflexivity].
      exists [], (map ascii_lower (list_ascii_of_string (TaskHistory.title h))).
      reflexivity.
    + unfold ilike. change (String "%" (s ++ "%")) with ("%" ++ s ++ "%")%string.
      rewrite search_pattern. apply (like_contains _ _ Hl).
Qed.

Lemma X10_search_history_substring_witness :
  let h1 := TaskHistory.mk 1 7 1 "Water Plants" "" false None None DELETED
              (mkDT 2026 1 1 9 0 0 0 None) 7 true (mkDT 2028 1 1 9 0 0 0 None) in
  exists q,
    HistoryService.search_history table_order (mkStore [] [h1] 1 2) 7 "plant" 1 50
      = HistoryService.get_history table_order (mkStore [] [h1] 1 2) 7 (Some q) /\
    HistoryService.history_matches 7 q h1 = true.
Proof.
  intros h1.
  destruct (proj2 (X10_search_history_substring table_order (mkStore [] [h1] 1 2) 7 "plant" 1 50)
              ltac:(lia) ltac:(lia) ltac:(vm_compute; reflexivity)) as (q & Hq & Hm).
  exists q. split; [exact Hq|]. apply Hm. split; [reflexivity|].
  exists ["w"%char; "a"%char; "t"%char; "e"%char; "r"%char; " "%char], ["s"%char].
  vm_compute. reflexivity.
Defined.

(** X11: the search text is put into the [ILIKE] pattern unescaped, so its
    wildcards act as wildcards: searching ["%"] matches every entry of the
    user and searching ["_"] every entry of the user with a non-empty
    title. *)
Theorem X11_search_wildcards (user_id page page_size : Z) (h : TaskHistory.t) :
  (HistoryService.history_matches user_id
     (TaskHistoryQuery.mk None None None (Some "%"%string) page page_size) h = true <->
   TaskHistory.user_id h = user_id) /\
  (HistoryService.history_matches user_id
     (TaskHistoryQuery.mk None None None (Some "_"%string) page page_size) h = true <->
   TaskHistory.user_id h = user_id /\ TaskHistory.title h <> ""%string).
Proof.
  unfold HistoryService.history_matches, ilike. cbn -[like].
  rewrite !andb_true_r, !andb_true_iff, !Z.eqb_eq.
  split.
  - rewrite (like_pct_skip _ _ (like_pct_skip _ _ (like_pct_any _))). tauto.
  - apply and_iff_compat_l.
    destruct (TaskHistory.title h) as [|c t]; simpl.
    + split; [discriminate|intros H; exfalso; apply H; reflexivity].
    + split; [discriminate|intros _].
      simpl. apply orb_true_iff. left. apply like_pct_any.
Qed.

(** ** Task API routes: [int(task_id)] first *)

Lemma digit_char_props (d : Z) : 0 <= d <= 9 ->
  is_digit (digit_char d) = true /\ digit_value (digit_char d) = d /\
  py_isspace (digit_char d) = false /\ Ascii.eqb (digit_char d) "-" = false /\
  Ascii.eqb (digit_char d) "+" = false.
Proof.
  intros Hd.
  assert (d = 0 \/ d = 1 \/ d = 2 \/ d = 3 \/ d = 4 \/ d = 5 \/ d = 6 \/ d = 7 \/ d = 8 \/ d = 9)
    as Hc by lia.
  repeat destruct Hc as [->|Hc]; [..|subst d]; vm_compute; repeat split.
Qed.

Lemma digits_rev_spec (f : nat) : forall m : Z,
  (1 <= f)%nat -> 0 <= m < 10 ^ Z.of_nat f ->
  digits_rev f m <> [] /\ Forall (fun d => 0 <= d <= 9) (digits_rev f m) /\
  fold_left (fun a d => a * 10 + d) (rev (digits_rev f m)) 0 = m.
Proof.
  induction f as [|f IH]; intros m Hf Hm; [lia|].
  simpl. destruct (m <? 10) eqn:E.
  - apply Z.ltb_lt in E. split; [discriminate|]. split; [constructor; [lia|constructor]|].
    reflexivity.
  - apply Z.ltb_ge in E.
    assert (Hf' : (1 <= f)%nat).
    { destruct f; [simpl in Hm; lia|lia]. }
    assert (Hm' : 0 <= m / 10 < 10 ^ Z.of_nat f).
    { split; [apply Z.div_pos; lia|]. apply Z.div_lt_upper_bound; [lia|].
      rewrite Nat2Z.inj_succ, Z.pow_succ_r in Hm by lia. lia. }
    destruct (IH (m / 10) Hf' Hm') as (_ & Hall & Hval).
    split; [discriminate|]. split.
    + constructor; [pose proof (Z.mod_pos_bound m 10); lia|exact Hall].
    + simpl. rewrite fold_left_app. simpl. rewrite Hval.
      pose proof (Z.div_mod m 10). lia.
Qed.

Lemma str_fuel (n : Z) :
  (1 <= Z.to_nat (Z.log2_up (Z.abs n) + 2))%nat /\
  0 <= Z.abs n < 10 ^ Z.of_nat (Z.to_nat (Z.log2_up (Z.abs n) + 2)).
Proof.
  pose proof (Z.log2_up_nonneg (Z.abs n)) as H0.
  split; [lia|]. rewrite Z2Nat.id by lia. split; [lia|].
  set (k := Z.log2_up (Z.abs n)).
  assert (Hle : Z.abs n <= 2 ^ k).
  { destruct (Z.lt_trichotomy (Z.abs n) 1) as [Hl|[He|Hg]].
    - pose proof (Z.pow_pos_nonneg 2 k ltac:(lia) H0). lia.
    - unfold k. rewrite He. reflexivity.
    - apply (Z.log2_up_spec (Z.abs n) Hg). }
  assert (H2 : 2 ^ k <= 10 ^ k) by (apply Z.pow_le_mono_l; lia).
  assert (H3 : 10 ^ k < 10 ^ (k + 2)) by (apply Z.pow_lt_mono_r; lia).
  lia.
Qed.

Lemma list_ascii_of_digits (l : list Z) :
  list_ascii_of_string (fold_right (fun d acc => String (digit_char d) acc) EmptyString l)
  = map digit_char l.
Proof.
  induction l as [|d l IH]; cbn [fold_right list_ascii_of_string map]; [reflexivity|].
  rewrite IH. reflexivity.
Qed.

Lemma digits_after_spec (ds : list Z) : forall acc,
  Forall (fun d => 0 <= d <= 9) ds ->
  digits_after acc (map digit_char ds) = Some (fold_left (fun a d => a * 10 + d) ds acc).
Proof.
  induction ds as [|d ds IH]; intros acc Hall; cbn [map digits_after fold_left];
    [reflexivity|].
  inversion Hall as [|? ? Hd Hall']; subst.
  destruct (digit_char_props d Hd) as (Hdig & Hval & _).
  rewrite Hdig, Hval. apply IH. exact Hall'.
Qed.

Lemma strip_id (l : list ascii) :
  Forall (fun c => py_isspace c = false) l -> strip l = l.
Proof.
  intros Hl.
  assert (Hs : forall l', Forall (fun c => py_isspace c = false) l' -> lstrip l' = l').
  { intros [|c r] H; simpl; [reflexivity|]. inversion H; subst.
    match goal with E : py_isspace c = false |- _ => rewrite E end. reflexivity. }
  unfold strip. rewrite (Hs l Hl), Hs, rev_involutive; [reflexivity|].
  apply Forall_rev. exact Hl.
Qed.

Lemma py_int_str_of_Z (n : Z) : py_int (str_of_Z n) = Some n.
Proof.
  destruct (str_fuel n) as [Hf Hm].
  destruct (digits_rev_spec _ (Z.abs n) Hf Hm) as (Hne & Hall & Hval).
  unfold str_of_Z.
  set (ds := digits_rev (Z.to_nat (Z.log2_up (Z.abs n) + 2)) (Z.abs n)) in *.
  assert (Hall' : Forall (fun d => 0 <= d <= 9) (rev ds)) by (apply Forall_rev; exact Hall).
  destruct (rev ds) as [|d0 rs] eqn:Er.
  { apply (f_equal (@rev Z)) in Er. rewrite rev_involutive in Er. cbn [rev] in Er.
    exfalso; exact (Hne Er). }
  inversion Hall' as [|? ? Hd0 Hrs]; subst.
  destruct (digit_char_props d0 Hd0) as (Hdig & Hv & Hs0 & Hm1 & Hp1).
  assert (Hsp : Forall (fun c => py_isspace c = false) (map digit_char (d0 :: rs))).
  { apply Forall_map. eapply Forall_impl; [|exact Hall'].
    intros d Hd. exact (proj1 (proj2 (proj2 (digit_char_props d Hd)))). }
  assert (Hparse : parse_digits (map digit_char (d0 :: rs)) = Some (Z.abs n)).
  { cbn [map parse_digits]. rewrite Hdig, Hv, (digits_after_spec rs d0 Hrs).
    rewrite <- Hval. cbn [fold_left]. f_equal. }
  unfold py_int. destruct (n <? 0) eqn:En.
  - apply Z.ltb_lt in En.
    cbn [append list_ascii_of_string]. rewrite list_ascii_of_digits.
    rewrite strip_id by (constructor; [reflexivity|exact Hsp]).
    rewrite (Ascii.eqb_refl "-"). rewrite Hparse. cbn [option_map]. f_equal. lia.
  - apply Z.ltb_ge in En.
    rewrite list_ascii_of_digits, strip_id by exact Hsp.
    cbn [map]. rewrite Hm1, Hp1.
    change (digit_char d0 :: map digit_char rs) with (map digit_char (d0 :: rs)).
    rewrite Hparse. f_equal. lia.
Qed.

Lemma delete_task_no_value_error (e : env) (st : store) (task_id user_id : Z) :
  snd (TaskService.delete_task e st task_id user_id) <> Err ValueError.
Proof.
  unfold TaskService.delete_task.
  destruct (TaskService.get_task_by_id st task_id user_id); [|discriminate].
  destruct (HistoryService.create_history_entry _ _ _ _ _) as [[s h]|x]; [discriminate|].
  destruct (session_usable_after x); discriminate.
Qed.

(** X12: [GET], [PUT] and [DELETE /tasks/{task_id}] parse [task_id] with
    [int()] first, so for the decimal form of an integer [n] they act on the
    user's task with server id [n], exactly as the service calls with [n].
    A task whose client id is that string is never the task the GET route
    returns, unless its server id is [n]. *)
Theorem X12_numeric_task_id_is_server_id (e : env) (st : store) (user_id n : Z)
    (task_data : TaskUpdate.t) :
  TaskApi.get_task st (str_of_Z n) user_id = TaskService.get_task_by_id st n user_id /\
  TaskApi.update_task e st (str_of_Z n) user_id task_data
    = TaskService.update_task e st n user_id task_data /\
  TaskApi.delete_task e st (str_of_Z n) user_id = TaskService.delete_task e st n user_id /\
  (forall x : Task.t, Task.id x <> n -> TaskApi.get_task st (str_of_Z n) user_id <> Some x).
Proof.
  unfold TaskApi.get_task, TaskApi.update_task, TaskApi.delete_task.
  rewrite py_int_str_of_Z.
  split; [reflexivity|]. split.
  { rewrite (update_task_raises e st n user_id task_data).
    destruct (TaskService.get_task_by_id st n user_id); reflexivity. }
  split.
  { destruct (TaskService.delete_task e st n user_id) as [s r] eqn:E.
    destruct r as [b|x]; [reflexivity|].
    destruct x; try reflexivity.
    exfalso. exact (delete_task_no_value_error e st n user_id (f_equal snd E)). }
  intros x Hx Hg. apply find_some in Hg as [_ Hp].
  apply andb_true_iff in Hp as [Hp _]. apply Z.eqb_eq in Hp. contradiction.
Qed.

Lemma X12_numeric_task_id_is_server_id_witness :
  let x := Task.mk 4 7 "Buy milk" "" false Fixtures.now0 Fixtures.now0 (Some "42"%string) 1
             None None false 15 None in
  In x (tasks (mkStore [x] [] 5 1)) /\ Task.client_id x = Some (str_of_Z 42) /\
  TaskApi.get_task (mkStore [x] [] 5 1) (str_of_Z 42) 7 <> Some x.
Proof.
  intros x. split; [left; reflexivity|]. split; [reflexivity|].
  refine (proj2 (proj2 (proj2 (X12_numeric_task_id_is_server_id Fixtures.env_ok
            (mkStore [x] [] 5 1) 7 42 Fixtures.complete_patch))) x _).
  simpl. lia.
Defined.

(** ** TaskService.get_tasks and create_task *)

(** X13: [get_tasks] pages through the user's tasks newest [created_at]
    first, whatever order the database gives tasks of equal [created_at]
    in each query.  For [skip >= 0] and [limit >= 0] the result holds only
    the user's tasks, newest first, [max 0 (min limit (n - skip))] of them
    for [n] tasks of the user; and for a second query with a [skip'] at or
    past [skip + limit], every task of the first result is at least as new
    as every task of the second. *)
Theorem X13_get_tasks_pages (o o' : tie_order Task.t) (st : store) (user_id skip limit skip' limit' : Z)
    (rows rows' : list Task.t) :
  0 <= skip -> 0 <= limit -> skip + limit <= skip' ->
  TaskService.get_tasks o st user_id skip limit = POk rows ->
  TaskService.get_tasks o' st user_id skip' limit' = POk rows' ->
  Forall (fun x => Task.user_id x = user_id) rows /\
  Sorted (fun a b => dt_instant (Task.created_at b) <= dt_instant (Task.created_at a)) rows /\
  Z.of_nat (List.length rows) =
    Z.max 0 (Z.min limit
      (Z.of_nat (List.length (filter (fun x => Task.user_id x =? user_id) (tasks st))) - skip)) /\
  (forall x x', In x rows -> In x' rows' ->
     dt_instant (Task.created_at x') <= dt_instant (Task.created_at x)).
Proof.
  intros Hs Hl Hs' Hg Hg'. unfold TaskService.get_tasks in Hg, Hg'.
  replace ((skip <? 0) || (limit <? 0)) with false in Hg
    by (symmetry; apply orb_false_iff; rewrite !Z.ltb_ge; lia).
  destruct ((skip' <? 0) || (limit' <? 0)) eqn:E'; [discriminate|].
  apply orb_false_iff in E' as [E1 E2]. rewrite Z.ltb_ge in E1, E2.
  injection Hg as Hr. injection Hg' as Hr'.
  set (l := filter (fun x => Task.user_id x =? user_id) (tasks st)) in *.
  split; [|split; [|split]].
  - apply Forall_forall. intros x Hin. rewrite <- Hr in Hin.
    apply in_order_by_desc_slice in Hin. apply filter_In in Hin as [_ Hm].
    apply Z.eqb_eq. exact Hm.
  - rewrite <- Hr. apply sorted_firstn, sorted_skipn.
    apply (order_by_desc_sorted (fun x => dt_instant (Task.created_at x))).
  - rewrite <- Hr, length_firstn, length_skipn, (Permutation_length (order_by_desc_perm _ o l)).
    rewrite Nat2Z.inj_min, Nat2Z.inj_sub_max, !Z2Nat.id by lia. lia.
  - intros x x' Hin Hin'. rewrite <- Hr in Hin. rewrite <- Hr' in Hin'.
    refine (slices_ordered _ o o' _ _ _ _ _ x x' _ Hin Hin').
    rewrite <- Z2Nat.inj_add by lia. apply Z2Nat.inj_le; lia.
Qed.

Lemma X13_get_tasks_pages_witness :
  TaskService.get_tasks table_order Fixtures.st0 7 0 1 = POk [Fixtures.weekly_task] /\
  TaskService.get_tasks reversed_order Fixtures.st0 7 1 1 = POk [Fixtures.done_task] /\
  dt_instant (Task.created_at Fixtures.done_task)
    <= dt_instant (Task.created_at Fixtures.weekly_task).
Proof.
  assert (Ha : TaskService.get_tasks table_order Fixtures.st0 7 0 1 = POk [Fixtures.weekly_task])
    by (vm_compute; reflexivity).
  assert (Hb : TaskService.get_tasks reversed_order Fixtures.st0 7 1 1 = POk [Fixtures.done_task])
    by (vm_compute; reflexivity).
  split; [exact Ha|]. split; [exact Hb|].
  destruct (X13_get_tasks_pages table_order reversed_order Fixtures.st0 7 0 1 1 1
              [Fixtures.weekly_task] [Fixtures.done_task]
              ltac:(lia) ltac:(lia) ltac:(lia) Ha Hb) as (_ & _ & _ & H).
  apply H; left; reflexivity.
Defined.

(** X14: [create_task] never creates a task: [TaskCreate] declares only
    [title], [description] and [client_id], so reading [task_data.category]
    raises [AttributeError] before the row is built, for every input, and
    the store is left as it was. *)
Theorem X14_create_task_attribute_error (e : env) (st : store) (user_id : Z)
    (task_data : TaskService.TaskCreate) :
  TaskService.create_task e st user_id task_data
  = (st, PErr (AttributeError "TaskCreate" "category")).
Proof. reflexivity. Qed.

(** ** SchedulerService: the job store *)

Lemma find_filter_irrelevant {A} (p q : A -> bool) (l : list A) :
  (forall x, p x = true -> q x = true) -> find p (filter q l) = find p l.
Proof.
  intros H. induction l as [|x l IH]; simpl; [reflexivity|].
  destruct (p x) eqn:Ep.
  - rewrite (H x Ep). simpl. rewrite Ep. reflexivity.
  - destruct (q x); simpl; [rewrite Ep|]; exact IH.
Qed.

Lemma find_app {A} (p : A -> bool) (l1 l2 : list A) :
  find p (l1 ++ l2) = match find p l1 with Some x => Some x | None => find p l2 end.
Proof. induction l1 as [|x l1 IH]; simpl; [reflexivity|]. destruct (p x); [reflexivity|exact IH]. Qed.

Lemma get_job_filter (jobs : list Scheduler.job) (rid id : string) :
  Scheduler.get_job (filter (fun k => negb (String.eqb (Scheduler.job_id k) rid)) jobs) id
  = if String.eqb id rid then None else Scheduler.get_job jobs id.
Proof.
  unfold Scheduler.get_job. destruct (String.eqb id rid) eqn:E.
  - apply String.eqb_eq in E as ->. apply find_none_intro. intros k Hk.
    apply filter_In in Hk as [_ Hk]. apply negb_true_iff in Hk. exact Hk.
  - apply find_filter_irrelevant. intros k Hk. apply String.eqb_eq in Hk.
    rewrite Hk, E. reflexivity.
Qed.

Lemma get_job_add (jobs : list Scheduler.job) (j : Scheduler.job) (id : string) :
  Scheduler.get_job (Scheduler.add_job jobs j) id
  = if String.eqb id (Scheduler.job_id j) then Some j else Scheduler.get_job jobs id.
Proof.
  unfold Scheduler.add_job. pose proof (get_job_filter jobs (Scheduler.job_id j) id) as H.
  unfold Scheduler.get_job in *. rewrite find_app, H. simpl.
  destruct (String.eqb id (Scheduler.job_id j)) eqn:E.
  - apply String.eqb_eq in E as ->. rewrite String.eqb_refl. reflexivity.
  - rewrite String.eqb_sym, E. destruct (find _ jobs); reflexivity.
Qed.

Lemma add_job_nodup (jobs : list Scheduler.job) (j : Scheduler.job) :
  NoDup (map Scheduler.job_id jobs) -> NoDup (map Scheduler.job_id (Scheduler.add_job jobs j)).
Proof.
  intros H. unfold Scheduler.add_job. rewrite map_app. apply NoDup_app.
  - clear -H. induction jobs as [|k ks IH]; simpl in *; [constructor|].
    inversion H as [|? ? Hn Hd]; subst.
    destruct (negb _); simpl; [|apply IH; exact Hd].
    constructor; [|apply IH; exact Hd].
    intros Hin. apply Hn. apply in_map_iff in Hin as [k' [Hk' Hin]].
    apply filter_In in Hin as [Hin _]. rewrite <- Hk'. apply in_map. exact Hin.
  - repeat constructor. intros [].
  - intros a Ha [<-|[]]. apply in_map_iff in Ha as [k [Hk Hin]].
    apply filter_In in Hin as [_ Hn]. rewrite Hk, String.eqb_refl in Hn. discriminate.
Qed.

Lemma str_of_Z_chars (n : Z) :
  Forall (fun c => is_digit c || Ascii.eqb c "-" = true) (list_ascii_of_string (str_of_Z n)).
Proof.
  destruct (str_fuel n) as [Hf Hm].
  destruct (digits_rev_spec _ (Z.abs n) Hf Hm) as (_ & Hall & _).
  assert (Hd : Forall (fun c => is_digit c || Ascii.eqb c "-" = true)
                 (map digit_char (rev (digits_rev (Z.to_nat (Z.log2_up (Z.abs n) + 2))
                                                  (Z.abs n))))).
  { apply Forall_map. apply Forall_rev in Hall. eapply Forall_impl; [|exact Hall].
    intros d Hd. rewrite (proj1 (digit_char_props d Hd)). reflexivity. }
  unfold str_of_Z. destruct (n <? 0).
  - cbn [append list_ascii_of_string]. rewrite list_ascii_of_digits.
    constructor; [reflexivity|exact Hd].
  - rewrite list_ascii_of_digits. exact Hd.
Qed.

Lemma str_of_Z_inj (a b : Z) : str_of_Z a = str_of_Z b -> a = b.
Proof.
  intros H. pose proof (py_int_str_of_Z a) as Ha. rewrite H, py_int_str_of_Z in Ha.
  injection Ha as ->. reflexivity.
Qed.

Lemma split_at_underscore (a b x y : list ascii) :
  Forall (fun c => is_digit c || Ascii.eqb c "-" = true) a ->
  Forall (fun c => is_digit c || Ascii.eqb c "-" = true) b ->
  a ++ "_"%char :: x = b ++ "_"%char :: y -> a = b /\ x = y.
Proof.
  revert b. induction a as [|c a IH]; intros [|d b] Ha Hb E; simpl in E.
  - injection E as E. split; [reflexivity|exact E].
  - injection E as Ed _. subst d. inversion Hb as [|? ? Hd _]. vm_compute in Hd. discriminate.
  - injection E as Ec _. subst c. inversion Ha as [|? ? Hc _]. vm_compute in Hc. discriminate.
  - injection E as -> E. inversion Ha; inversion Hb; subst.
    destruct (IH b ltac:(assumption) ltac:(assumption) E) as [-> ->]. split; reflexivity.
Qed.

(** The characters of a notification job id after its prefix. *)
Lemma notification_id_split (t : Z) (suffix : string) (t' : Z) (suffix' : string) :
  ("notification_" ++ str_of_Z t ++ "_" ++ suffix)%string
  = ("notification_" ++ str_of_Z t' ++ "_" ++ suffix')%string ->
  t = t' /\ suffix = suffix'.
Proof.
  intros E. apply (f_equal list_ascii_of_string) in E.
  rewrite !list_ascii_of_string_append in E. apply app_inv_head in E.
  cbn [list_ascii_of_string] in E.
  destruct (split_at_underscore _ _ _ _ (str_of_Z_chars t) (str_of_Z_chars t') E) as [E1 E2].
  split.
  - apply str_of_Z_inj. rewrite <- (string_of_list_ascii_of_string (str_of_Z t)), E1.
    apply string_of_list_ascii_of_string.
  - rewrite <- (string_of_list_ascii_of_string suffix), E2.
    apply string_of_list_ascii_of_string.
Qed.

Lemma reminder_ne_due (t m t' : Z) : Scheduler.reminder_job_id t m <> Scheduler.due_job_id t'.
Proof.
  unfold Scheduler.reminder_job_id, Scheduler.due_job_id. intros E.
  destruct (notification_id_split t (str_of_Z m) t' "due" E) as [_ E2].
  pose proof (str_of_Z_chars m) as Hc. rewrite E2 in Hc.
  inversion Hc as [|? ? Hd _]. vm_compute in Hd. discriminate.
Qed.

Lemma schedule_notification_get (now : Z) (jobs : list Scheduler.job) (t due rm : Z)
    (id : string) :
  let rt := due - rm * 60 * 1000000 in
  Scheduler.get_job (Scheduler.schedule_notification now jobs t due rm) id
  = if String.eqb id (Scheduler.due_job_id t) && (now <? due)
    then Some (Scheduler.mkJob (Scheduler.due_job_id t) due t 0)
    else if String.eqb id (Scheduler.reminder_job_id t rm) && (now <? rt)
    then Some (Scheduler.mkJob (Scheduler.reminder_job_id t rm) rt t rm)
    else Scheduler.get_job jobs id.
Proof.
  intros rt. unfold Scheduler.schedule_notification. fold rt.
  destruct (String.eqb id (Scheduler.due_job_id t)) eqn:Ed;
    destruct (String.eqb id (Scheduler.reminder_job_id t rm)) eqn:Er.
  - apply String.eqb_eq in Ed, Er. exfalso. apply (reminder_ne_due t rm t). congruence.
  - destruct (now <? rt), (now <? due); rewrite ?get_job_add; cbn [Scheduler.job_id];
      rewrite ?Ed, ?Er; reflexivity.
  - destruct (now <? rt), (now <? due); rewrite ?get_job_add; cbn [Scheduler.job_id];
      rewrite ?Ed, ?Er; reflexivity.
  - destruct (now <? rt), (now <? due); rewrite ?get_job_add; cbn [Scheduler.job_id];
      rewrite ?Ed, ?Er; reflexivity.
Qed.

(** X15: [schedule_notification] at time [now] for a task due at [due]
    stores the reminder job [notification_<id>_<minutes>] exactly when the
    reminder time [due - minutes] is after [now] and the due job
    [notification_<id>_due] exactly when [due] is after [now], replacing
    a job of the same id; every other job stays as it was, job ids stay
    unique, and scheduling the same notification again changes nothing. *)
Theorem X15_schedule_notification_jobs (now : Z) (jobs : list Scheduler.job)
    (task_id due reminder_minutes : Z) :
  let rt := due - reminder_minutes * 60 * 1000000 in
  let rid := Scheduler.reminder_job_id task_id reminder_minutes in
  let did := Scheduler.due_job_id task_id in
  let js := Scheduler.schedule_notification now jobs task_id due reminder_minutes in
  (NoDup (map Scheduler.job_id jobs) -> NoDup (map Scheduler.job_id js)) /\
  Scheduler.get_job js rid
    = (if now <? rt then Some (Scheduler.mkJob rid rt task_id reminder_minutes)
       else Scheduler.get_job jobs rid) /\
  Scheduler.get_job js did
    = (if now <? due then Some (Scheduler.mkJob did due task_id 0)
       else Scheduler.get_job jobs did) /\
  (forall id, id <> rid -> id <> did -> Scheduler.get_job js id = Scheduler.get_job jobs id) /\
  (forall id, Scheduler.get_job
                (Scheduler.schedule_notification now js task_id due reminder_minutes) id
              = Scheduler.get_job js id).
Proof.
  intros rt rid did js.
  assert (Hne : rid <> did) by apply reminder_ne_due.
  split.
  { intros H. unfold js, Scheduler.schedule_notification.
    destruct (now <? due - reminder_minutes * 60 * 1000000), (now <? due);
      repeat apply add_job_nodup; exact H. }
  split.
  { unfold js. rewrite schedule_notification_get. fold rt rid did.
    rewrite (proj2 (String.eqb_neq rid did) Hne), String.eqb_refl. reflexivity. }
  split.
  { unfold js. rewrite schedule_notification_get. fold rt rid did.
    rewrite String.eqb_refl, (proj2 (String.eqb_neq did rid) (not_eq_sym Hne)).
    destruct (now <? due); reflexivity. }
  split.
  { intros id H1 H2. unfold js. rewrite schedule_notification_get. fold rt rid did.
    rewrite (proj2 (String.eqb_neq id did) H2), (proj2 (String.eqb_neq id rid) H1).
    reflexivity. }
  intros id. rewrite schedule_notification_get. fold rt rid did. unfold js.
  rewrite schedule_notification_get. fold rt rid did.
  destruct (String.eqb id did) eqn:Ed, (now <? due) eqn:Eu; simpl; try reflexivity;
  destruct (String.eqb id rid) eqn:Er, (now <? rt) eqn:Et; simpl; try reflexivity;
  rewrite ?Ed, ?Eu, ?Er, ?Et; reflexivity.
Qed.

Lemma X15_schedule_notification_jobs_witness :
  map Scheduler.job_id (Scheduler.schedule_notification 0 [] 1 86400000000 30)
    = ["notification_1_30"; "notification_1_due"]%string /\
  NoDup (map Scheduler.job_id (Scheduler.schedule_notification 0 [] 1 86400000000 30)).
Proof.
  split; [vm_compute; reflexivity|].
  exact (proj1 (X15_schedule_notification_jobs 0 [] 1 86400000000 30) (NoDup_nil _)).
Defined.

Lemma remove_or_keep (jobs : list Scheduler.job) (id : string) :
  match Scheduler.remove_job jobs id with Some js' => js' | None => jobs end
  = filter (fun k => negb (String.eqb (Scheduler.job_id k) id)) jobs.
Proof.
  unfold Scheduler.remove_job.
  destruct (existsb (fun k => String.eqb (Scheduler.job_id k) id) jobs) eqn:E; [reflexivity|].
  induction jobs as [|k ks IH]; simpl in *; [reflexivity|].
  apply orb_false_iff in E as [E1 E2]. rewrite E1. simpl. f_equal. exact (IH E2).
Qed.

Lemma cancel_notification_get (jobs : list Scheduler.job) (t : Z) (id : string) :
  Scheduler.get_job (Scheduler.cancel_notification jobs t) id
  = if String.eqb id (Scheduler.reminder_job_id t 15) || String.eqb id (Scheduler.due_job_id t)
    then None else Scheduler.get_job jobs id.
Proof.
  unfold Scheduler.cancel_notification. cbn [fold_left].
  rewrite !remove_or_keep, get_job_filter.
  change ("notification_" ++ str_of_Z t ++ "_due")%string with (Scheduler.due_job_id t).
  change ("notification_" ++ str_of_Z t ++ "_15")%string with (Scheduler.reminder_job_id t 15).
  rewrite get_job_filter.
  destruct (String.eqb id (Scheduler.due_job_id t)), (String.eqb id (Scheduler.reminder_job_id t 15));
    reflexivity.
Qed.

(** X16: [cancel_notification] for task [t] removes the jobs with ids
    [notification_<t>_15] and [notification_<t>_due] and nothing else:
    every other id keeps its job, in particular the reminder and due jobs
    of every other task. *)
Theorem X16_cancel_notification_only_own (jobs : list Scheduler.job) (t : Z) :
  Scheduler.get_job (Scheduler.cancel_notification jobs t) (Scheduler.reminder_job_id t 15) = None /\
  Scheduler.get_job (Scheduler.cancel_notification jobs t) (Scheduler.due_job_id t) = None /\
  (forall id, id <> Scheduler.reminder_job_id t 15 -> id <> Scheduler.due_job_id t ->
   Scheduler.get_job (Scheduler.cancel_notification jobs t) id = Scheduler.get_job jobs id) /\
  (forall t' m, t' <> t ->
   Scheduler.get_job (Scheduler.cancel_notification jobs t) (Scheduler.reminder_job_id t' m)
     = Scheduler.get_job jobs (Scheduler.reminder_job_id t' m) /\
   Scheduler.get_job (Scheduler.cancel_notification jobs t) (Scheduler.due_job_id t')
     = Scheduler.get_job jobs (Scheduler.due_job_id t')).
Proof.
  assert (Hkeep : forall id, id <> Scheduler.reminder_job_id t 15 -> id <> Scheduler.due_job_id t ->
            Scheduler.get_job (Scheduler.cancel_notification jobs t) id = Scheduler.get_job jobs id).
  { intros id H1 H2. rewrite cancel_notification_get.
    rewrite (proj2 (String.eqb_neq _ _) H1), (proj2 (String.eqb_neq _ _) H2). reflexivity. }
  split; [rewrite cancel_notification_get, String.eqb_refl; reflexivity|].
  split; [rewrite cancel_notification_get, String.eqb_refl, orb_true_r; reflexivity|].
  split; [exact Hkeep|].
  intros t' m Ht. split; apply Hkeep.
  - intros E. apply (notification_id_split t' (str_of_Z m) t (str_of_Z 15)) in E.
    destruct E as [E _]. exact (Ht E).
  - apply reminder_ne_due.
  - intros E. symmetry in E. exact (reminder_ne_due t 15 t' E).
  - intros E. change (Scheduler.due_job_id t') with ("notification_" ++ str_of_Z t' ++ "_" ++ "due")%string in E.
    change (Scheduler.due_job_id t) with ("notification_" ++ str_of_Z t ++ "_" ++ "due")%string in E.
    apply notification_id_split in E as [E _]. exact (Ht E).
Qed.

Lemma X16_cancel_notification_only_own_witness :
  let jobs := Scheduler.schedule_notification 0 (Scheduler.schedule_notification 0 [] 1 86400000000 15)
                2 86400000000 15 in
  Scheduler.get_job (Scheduler.cancel_notification jobs 1) (Scheduler.due_job_id 2)
  = Scheduler.get_job jobs (Scheduler.due_job_id 2) /\
  Scheduler.get_job jobs (Scheduler.due_job_id 2) <> None.
Proof.
  intros jobs. split.
  - exact (proj2 (proj2 (proj2 (proj2 (X16_cancel_notification_only_own jobs 1))) 2 30
                   ltac:(lia))).
  - vm_compute. discriminate.
Defined.

(** X17: [get_history_count] for a user is the total [get_history] reports
    for that user without a query (default page 1 of 50, no filter). *)
Theorem X17_history_count_is_total (o : tie_order TaskHistory.t) (st : store) (user_id : Z) :
  exists rows,
    HistoryService.get_history o st user_id None
      = POk (rows, HistoryService.get_history_count st user_id) /\
    Z.of_nat (List.length rows) = Z.min 50 (HistoryService.get_history_count st user_id).
Proof.
  assert (Hf : filter (HistoryService.history_matches user_id TaskHistoryQuery.default)
                 (history st)
               = filter (fun h => TaskHistory.user_id h =? user_id) (history st)).
  { apply filter_ext. intros h. unfold HistoryService.history_matches. simpl.
    rewrite !andb_true_r. reflexivity. }
  unfold HistoryService.get_history, HistoryService.get_history_count.
  cbn [TaskHistoryQuery.page TaskHistoryQuery.page_size TaskHistoryQuery.default].
  rewrite Hf. simpl orb. cbv iota beta zeta.
  eexists. split; [reflexivity|].
  rewrite length_firstn, length_skipn, (Permutation_length (order_by_desc_perm _ _ _)).
  change (Z.to_nat ((1 - 1) * 50)) with 0%nat. rewrite Nat.sub_0_r, Nat2Z.inj_min.
  reflexivity.
Qed.
